(** * claude-devtools: context switching, event rewiring and metadata extraction

    A shallow embedding of
      - src/main/ipc/context.ts        (the context IPC handlers),
      - the entry point of the main process (service start-up and event
        rewiring; it follows the renderer's App component in App.tsx),
      - src/main/utils/metadataExtraction.ts,
      - the RankedInjectionList component,
    together with the properties the specification states about them.
    Logging is left out throughout. *)

From Stdlib Require Import ZArith Ascii String List Lia Sorted Permutation.
From stdpp Require Import base option list gmap strings.

Local Open Scope string_scope.

(** ** JavaScript values and control flow *)

Module Js.

(** The result of [JSON.parse]: numbers are kept as integers, the code
    under study only tests them for truthiness. An object is the list of
    its own properties, one binding per key as [JSON.parse] leaves it. *)
#[local] Unset Elimination Schemes.
Inductive json : Type :=
| JNull
| JBool (b : bool)
| JNum (n : Z)
| JStr (s : string)
| JArr (items : list json)
| JObj (fields : list (string * json)).
#[local] Set Elimination Schemes.

(** ToBoolean. *)
Definition truthy (v : json) : bool :=
  match v with
  | JNull => false
  | JBool b => b
  | JNum n => negb (n =? 0)%Z
  | JStr s => negb (String.eqb s "")
  | JArr _ | JObj _ => true
  end.

Fixpoint assoc (k : string) (fs : list (string * json)) : option json :=
  match fs with
  | [] => None
  | (k', v) :: fs' => if String.eqb k k' then Some v else assoc k fs'
  end.

(** A thrown value: an [Error] instance, or anything else (of which the
    code only ever takes [String(err)]). *)
Inductive Thrown : Type :=
| ErrorObject (name message : string)
| OtherValue (asString : string).

Inductive Outcome (A : Type) : Type :=
| Returned (a : A)
| Threw (e : Thrown).
Global Arguments Returned {A} a.
Global Arguments Threw {A} e.

(** Computations over a mutable world [W] that may throw; what was
    written to the world before a throw stays written. *)
Definition Eff (W A : Type) : Type := W -> Outcome A * W.

Definition ret {W A} (a : A) : Eff W A := fun w => (Returned a, w).
Definition throw {W A} (e : Thrown) : Eff W A := fun w => (Threw e, w).
Definition bind {W A B} (m : Eff W A) (k : A -> Eff W B) : Eff W B :=
  fun w => match m w with
           | (Returned a, w') => k a w'
           | (Threw e, w') => (Threw e, w')
           end.
Definition try_catch {W A} (body : Eff W A) (handler : Thrown -> Eff W A) : Eff W A :=
  fun w => match body w with
           | (Returned a, w') => (Returned a, w')
           | (Threw e, w') => handler e w'
           end.
Definition get {W} : Eff W W := fun w => (Returned w, w).
Definition modify {W} (f : W -> W) : Eff W unit := fun w => (Returned tt, f w).

(** A block of statements run in order; a throw abandons the rest. *)
Fixpoint exec {W} (p : list (Eff W unit)) : Eff W unit :=
  match p with
  | [] => ret tt
  | st :: rest => bind st (fun _ => exec rest)
  end.

(** The worlds a block passes through: the one it starts in and the one
    left by each statement it runs. *)
Fixpoint points {W} (p : list (Eff W unit)) (w : W) : list W :=
  w :: match p with
       | [] => []
       | st :: rest =>
           match st w with
           | (Returned _, w') => points rest w'
           | (Threw _, w') => [w']
           end
       end.

End Js.

Import Js.

Declare Scope eff_scope.
Delimit Scope eff_scope with eff.
Notation "x <~ m ;; k" := (Js.bind m (fun x => k))
  (at level 100, m at next level, k at level 200, right associativity) : eff_scope.

(** ** The main process: its services and module state *)

Module MainProcess.

(** [ServiceContext.type]. *)
Inductive ContextType : Type := local | ssh.

(** A [ServiceContext] as the code under study uses it: its identifier and
    its type. The file watcher it owns is mutable and shared by reference,
    it is kept in the [watchers] store of the process under the context's
    identifier. *)
Record ServiceContext : Type := {
  ctx_id : string;
  ctx_type : ContextType;
}.

(** Modelled from the spec: the connection status, section 3 (the type
    is declared outside the sources at hand). *)
Inductive ConnectionStatus : Type :=
| disconnected
| connecting
| connected
| error (reason : string).

(** The channels of [webContents.send] that the code writes to. *)
Inductive Channel : Type :=
| file_change
| todo_change
| SSH_STATUS
| context_changed.

(** What travels on them: a watcher event (opaque to this code), a
    connection status, or the context-changed notice. *)
Inductive Payload : Type :=
| WatcherEvent (event : json)
| StatusValue (status : ConnectionStatus)
| ContextChanged (contextId : string) (type : ContextType).

(** The two event classes of a file watcher. *)
Inductive WatcherEventName : Type := on_file_change | on_todo_change.

(** Every listener the main module registers is a closure of one shape,
    [(x) => { if (mainWindow && !mainWindow.isDestroyed())
                mainWindow.webContents.send(channel, x) }];
    [closure] tells two closures of the same shape apart. *)
Record Listener : Type := {
  closure : nat;
  forwardsTo : Channel;
}.

(** The file watcher of a context: its listeners, as [on] and [off] of
    the sources keep them, whether a notification manager was set, and
    how often the context was started (spec section 4.2). *)
Record FileWatcher : Type := {
  started : nat;                      (* how often start() was called *)
  notificationManagerSet : bool;
  fileChangeListeners : list Listener;
  todoChangeListeners : list Listener;
}.

(** [() => context.fileWatcher.off(eventName, handler)]. *)
Record Cleanup : Type := {
  cl_context : string;
  cl_event : WatcherEventName;
  cl_handler : Listener;
}.

Record BrowserWindow : Type := { isDestroyed : bool }.

(** Modelled from the spec: the state of the registry, section 3; the
    class is not part of the sources at hand. *)
Record ServiceContextRegistry : Type := {
  contexts : gmap string ServiceContext;
  activeId : string;
}.

(** Modelled from the spec: the connection manager, section 4.5: the
    attempts it tracks by target, the aggregate status that [getStatus()]
    returns, and the listeners of its state-change event. *)
Record SshConnectionManager : Type := {
  statuses : gmap string ConnectionStatus;   (* per target *)
  aggregate : ConnectionStatus;              (* getStatus() *)
  stateChangeListeners : list Listener;
}.

(** The state of the main process. [network] stands for the world outside:
    the targets that cannot be reached, each with the reason a connection
    attempt to it fails with. *)
Record Process : Type := {
  mainWindow : option BrowserWindow;
  renderer : list (Channel * Payload);       (* what webContents.send delivered *)
  contextRegistry : ServiceContextRegistry;
  sshConnectionManager : SshConnectionManager;
  network : gmap string string;
  watchers : gmap string FileWatcher;
  fileChangeCleanup : option Cleanup;
  todoChangeCleanup : option Cleanup;
  closures : nat;                            (* closures created so far *)
  ipcHandlers : bool;                        (* initializeIpcHandlers has run *)
}.

#[export] Instance ContextType_eq_dec : EqDecision ContextType.
Proof. solve_decision. Defined.
#[export] Instance ConnectionStatus_eq_dec : EqDecision ConnectionStatus.
Proof. solve_decision. Defined.
#[export] Instance Channel_eq_dec : EqDecision Channel.
Proof. solve_decision. Defined.
#[export] Instance WatcherEventName_eq_dec : EqDecision WatcherEventName.
Proof. solve_decision. Defined.
#[export] Instance Listener_eq_dec : EqDecision Listener.
Proof. solve_decision. Defined.
#[export] Instance ServiceContext_eq_dec : EqDecision ServiceContext.
Proof. solve_decision. Defined.

Definition M : Type -> Type := Eff Process.

(** *** Field updates *)

Definition set_mainWindow (v : option BrowserWindow) (s : Process) : Process :=
  {| mainWindow := v; renderer := renderer s; contextRegistry := contextRegistry s;
     sshConnectionManager := sshConnectionManager s; network := network s;
     watchers := watchers s; fileChangeCleanup := fileChangeCleanup s;
     todoChangeCleanup := todoChangeCleanup s; closures := closures s;
     ipcHandlers := ipcHandlers s |}.
Definition set_renderer (v : list (Channel * Payload)) (s : Process) : Process :=
  {| mainWindow := mainWindow s; renderer := v; contextRegistry := contextRegistry s;
     sshConnectionManager := sshConnectionManager s; network := network s;
     watchers := watchers s; fileChangeCleanup := fileChangeCleanup s;
     todoChangeCleanup := todoChangeCleanup s; closures := closures s;
     ipcHandlers := ipcHandlers s |}.
Definition set_contextRegistry (v : ServiceContextRegistry) (s : Process) : Process :=
  {| mainWindow := mainWindow s; renderer := renderer s; contextRegistry := v;
     sshConnectionManager := sshConnectionManager s; network := network s;
     watchers := watchers s; fileChangeCleanup := fileChangeCleanup s;
     todoChangeCleanup := todoChangeCleanup s; closures := closures s;
     ipcHandlers := ipcHandlers s |}.
Definition set_sshConnectionManager (v : SshConnectionManager) (s : Process) : Process :=
  {| mainWindow := mainWindow s; renderer := renderer s; contextRegistry := contextRegistry s;
     sshConnectionManager := v; network := network s;
     watchers := watchers s; fileChangeCleanup := fileChangeCleanup s;
     todoChangeCleanup := todoChangeCleanup s; closures := closures s;
     ipcHandlers := ipcHandlers s |}.
Definition set_watchers (v : gmap string FileWatcher) (s : Process) : Process :=
  {| mainWindow := mainWindow s; renderer := renderer s; contextRegistry := contextRegistry s;
     sshConnectionManager := sshConnectionManager s; network := network s;
     watchers := v; fileChangeCleanup := fileChangeCleanup s;
     todoChangeCleanup := todoChangeCleanup s; closures := closures s;
     ipcHandlers := ipcHandlers s |}.
Definition set_fileChangeCleanup (v : option Cleanup) (s : Process) : Process :=
  {| mainWindow := mainWindow s; renderer := renderer s; contextRegistry := contextRegistry s;
     sshConnectionManager := sshConnectionManager s; network := network s;
     watchers := watchers s; fileChangeCleanup := v;
     todoChangeCleanup := todoChangeCleanup s; closures := closures s;
     ipcHandlers := ipcHandlers s |}.
Definition set_todoChangeCleanup (v : option Cleanup) (s : Process) : Process :=
  {| mainWindow := mainWindow s; renderer := renderer s; contextRegistry := contextRegistry s;
     sshConnectionManager := sshConnectionManager s; network := network s;
     watchers := watchers s; fileChangeCleanup := fileChangeCleanup s;
     todoChangeCleanup := v; closures := closures s;
     ipcHandlers := ipcHandlers s |}.
Definition set_closures (v : nat) (s : Process) : Process :=
  {| mainWindow := mainWindow s; renderer := renderer s; contextRegistry := contextRegistry s;
     sshConnectionManager := sshConnectionManager s; network := network s;
     watchers := watchers s; fileChangeCleanup := fileChangeCleanup s;
     todoChangeCleanup := todoChangeCleanup s; closures := v;
     ipcHandlers := ipcHandlers s |}.
Definition set_ipcHandlers (v : bool) (s : Process) : Process :=
  {| mainWindow := mainWindow s; renderer := renderer s; contextRegistry := contextRegistry s;
     sshConnectionManager := sshConnectionManager s; network := network s;
     watchers := watchers s; fileChangeCleanup := fileChangeCleanup s;
     todoChangeCleanup := todoChangeCleanup s; closures := closures s;
     ipcHandlers := v |}.

End MainProcess.

Import MainProcess.
Local Open Scope eff_scope.

(** ** Event emitters *)

Module Emitter.

(** [EventEmitter.on]: listeners are kept in insertion order. *)
Definition on (l : Listener) (ls : list Listener) : list Listener := ls ++ [l].

Fixpoint remove_first (l : Listener) (ls : list Listener) : list Listener :=
  match ls with
  | [] => []
  | x :: rest => if decide (x = l) then rest else x :: remove_first l rest
  end.

(** [EventEmitter.off]: removes at most one instance of the listener, the
    one added last. *)
Definition off (l : Listener) (ls : list Listener) : list Listener :=
  rev (remove_first l (rev ls)).

(** Calling a listener: the forwarding closure of the main module. *)
Definition invoke (l : Listener) (x : Payload) : M unit :=
  modify (fun s =>
    match mainWindow s with
    | Some w =>
        if isDestroyed w then s
        else set_renderer (renderer s ++ [(forwardsTo l, x)]) s
    | None => s
    end).

(** [EventEmitter.emit]: every listener is called, in insertion order. *)
Definition emit (ls : list Listener) (x : Payload) : M unit :=
  exec (map (fun l => invoke l x) ls).

End Emitter.

(** ** File watchers, kept by context identifier *)

Module Watcher.

Definition fresh : FileWatcher :=
  {| started := 0; notificationManagerSet := false;
     fileChangeListeners := []; todoChangeListeners := [] |}.

Definition watcherOf (s : Process) (id : string) : FileWatcher :=
  default fresh (watchers s !! id).

Definition listeners (ev : WatcherEventName) (w : FileWatcher) : list Listener :=
  match ev with
  | on_file_change => fileChangeListeners w
  | on_todo_change => todoChangeListeners w
  end.

Definition set_listeners (ev : WatcherEventName) (ls : list Listener)
    (w : FileWatcher) : FileWatcher :=
  match ev with
  | on_file_change =>
      {| started := started w; notificationManagerSet := notificationManagerSet w;
         fileChangeListeners := ls; todoChangeListeners := todoChangeListeners w |}
  | on_todo_change =>
      {| started := started w; notificationManagerSet := notificationManagerSet w;
         fileChangeListeners := fileChangeListeners w; todoChangeListeners := ls |}
  end.

Definition update (id : string) (f : FileWatcher -> FileWatcher) : M unit :=
  modify (fun s => set_watchers (<[id := f (watcherOf s id)]> (watchers s)) s).

(** [context.fileWatcher.on(eventName, handler)] *)
Definition on (id : string) (ev : WatcherEventName) (l : Listener) : M unit :=
  update id (fun w => set_listeners ev (Emitter.on l (listeners ev w)) w).

(** [context.fileWatcher.off(eventName, handler)] *)
Definition off (id : string) (ev : WatcherEventName) (l : Listener) : M unit :=
  update id (fun w => set_listeners ev (Emitter.off l (listeners ev w)) w).

(** The watcher of context [id] reports an event. *)
Definition emit (id : string) (ev : WatcherEventName) (event : json) : M unit :=
  s <~ get ;; Emitter.emit (listeners ev (watcherOf s id)) (WatcherEvent event).

(** [fileWatcher.setNotificationManager(manager)] *)
Definition setNotificationManager (id : string) : M unit :=
  update id (fun w =>
    {| started := started w; notificationManagerSet := true;
       fileChangeListeners := fileChangeListeners w;
       todoChangeListeners := todoChangeListeners w |}).

End Watcher.

(** ** The connection manager *)

Module Ssh.

Definition statusOf (s : Process) (target : string) : ConnectionStatus :=
  default disconnected (statuses (sshConnectionManager s) !! target).

(** [sshConnectionManager.getStatus()] *)
Definition getStatus (s : Process) : ConnectionStatus :=
  aggregate (sshConnectionManager s).

(** [sshConnectionManager.on('state-change', handler)] *)
Definition onStateChange (l : Listener) : M unit :=
  modify (fun s =>
    let m := sshConnectionManager s in
    set_sshConnectionManager
      {| statuses := statuses m; aggregate := aggregate m;
         stateChangeListeners := Emitter.on l (stateChangeListeners m) |} s).

(** The manager emits ['state-change'] carrying [status]. *)
Definition emitStateChange (status : ConnectionStatus) : M unit :=
  s <~ get ;;
  Emitter.emit (stateChangeListeners (sshConnectionManager s)) (StatusValue status).

(** Modelled from the spec: the connection manager is not part of the
    sources at hand. Sections 3 and 4.5: the status of a target changes
    to connected on success and to error on failure, and every change is
    announced by a state-change event carrying the updated status. *)
Definition setStatus (target : string) (status : ConnectionStatus) : M unit :=
  _ <~ modify (fun s =>
    let m := sshConnectionManager s in
    set_sshConnectionManager
      {| statuses := <[target := status]> (statuses m); aggregate := status;
         stateChangeListeners := stateChangeListeners m |} s) ;;
  emitStateChange status.

Definition ConnectionError (reason : string) : Thrown :=
  ErrorObject "ConnectionError" reason.

(** Modelled from the spec: the single connection attempt made at switch
    time (sections 4.1 step 3 and 4.5); it fails with [ConnectionError]
    wrapping the underlying reason. *)
Definition connect (target : string) : M unit :=
  s <~ get ;;
  match network s !! target with
  | Some reason => _ <~ setStatus target (error reason) ;; throw (ConnectionError reason)
  | None => setStatus target connected
  end.

End Ssh.

(** ** The context registry *)

Module Registry.

Record ContextInfo : Type := {
  info_id : string;
  info_kind : ContextType;
  info_status : option ConnectionStatus;     (* remote contexts only *)
}.

Record SwitchResult : Type := {
  previous : option ServiceContext;
  current : ServiceContext;
}.

Definition ContextNotFoundError (id : string) : Thrown :=
  ErrorObject "ContextNotFoundError" ("Context not found: " ++ id).
Definition DuplicateContextError (id : string) : Thrown :=
  ErrorObject "DuplicateContextError" ("Context already registered: " ++ id).

(** Modelled from the spec: [new ServiceContextRegistry()]; the class is
    not part of the sources at hand. Section 3: the initial value of
    [activeId] is "local". *)
Definition empty : ServiceContextRegistry :=
  {| contexts := ∅; activeId := "local" |}.

(** Modelled from the spec: [registerContext], section 4.1. *)
Definition registerContext (c : ServiceContext) : M unit :=
  s <~ get ;;
  let r := contextRegistry s in
  match contexts r !! ctx_id c with
  | Some _ => throw (DuplicateContextError (ctx_id c))
  | None =>
      modify (set_contextRegistry
                {| contexts := <[ctx_id c := c]> (contexts r); activeId := activeId r |})
  end.

Definition info (s : Process) (c : ServiceContext) : ContextInfo :=
  {| info_id := ctx_id c; info_kind := ctx_type c;
     info_status := match ctx_type c with
                    | local => None
                    | ssh => Some (Ssh.statusOf s (ctx_id c))
                    end |}.

(** Modelled from the spec: [list()], section 4.1, a snapshot without
    side effects. *)
Definition list : M (list ContextInfo) :=
  s <~ get ;; ret (map (fun kc => info s (snd kc)) (map_to_list (contexts (contextRegistry s)))).

(** Modelled from the spec: [getActiveContextId()], section 4.1. *)
Definition getActiveContextId : M string :=
  s <~ get ;; ret (activeId (contextRegistry s)).

Definition activate (targetId : string) : M unit :=
  modify (fun s =>
    set_contextRegistry
      {| contexts := contexts (contextRegistry s); activeId := targetId |} s).

(** Modelled from the spec: [switch(targetId)], section 4.1, steps 1 to 4.
    The registry does not rewire events itself. *)
Definition switch (targetId : string) : M SwitchResult :=
  s <~ get ;;
  let r := contextRegistry s in
  match contexts r !! targetId with
  | None => throw (ContextNotFoundError targetId)
  | Some target =>
      if decide (targetId = activeId r) then
        ret {| previous := Some target; current := target |}
      else
        _ <~ match ctx_type target with
             | ssh =>
                 if decide (Ssh.statusOf s targetId = connected) then ret tt
                 else Ssh.connect targetId
             | local => ret tt
             end ;;
        _ <~ activate targetId ;;
        ret {| previous := contexts r !! activeId r; current := target |}
  end.

(** Modelled from the spec: [ServiceContext.start()], section 4.2; a
    second call is a programming error and fails fast. *)
Definition start (c : ServiceContext) : M unit :=
  s <~ get ;;
  let w := Watcher.watcherOf s (ctx_id c) in
  if decide (started w = 0) then
    Watcher.update (ctx_id c) (fun w =>
      {| started := S (started w); notificationManagerSet := notificationManagerSet w;
         fileChangeListeners := fileChangeListeners w;
         todoChangeListeners := todoChangeListeners w |})
  else throw (ErrorObject "Error" "ServiceContext already started").

End Registry.

(** ** src/main/ipc/context.ts *)

Module ContextIpc.

(** The methods of the registry that the handlers call. *)
Record RegistryMethods : Type := {
  m_list : M (list Registry.ContextInfo);
  m_getActiveContextId : M string;
  m_switch : string -> M Registry.SwitchResult;
}.

(** [{ success: true, data } | { success: false, error }] *)
Inductive Envelope (D : Type) : Type :=
| success (data : D)
| failure (error : string).
Arguments success {D} data.
Arguments failure {D} error.

Record SwitchData : Type := { contextId : string }.

(** [err instanceof Error ? err.message : String(err)] *)
Definition message (err : Thrown) : string :=
  match err with
  | ErrorObject _ m => m
  | OtherValue str => str
  end.

Section Handlers.

(** Module state, set by [initializeContextHandlers]. *)
Variable registry : RegistryMethods.
Variable onContextSwitched : ServiceContext -> M unit.

(** Handler of [context:list]. *)
Definition handleList : M (Envelope (list Registry.ContextInfo)) :=
  try_catch
    (contexts <~ m_list registry ;;
     ret (success contexts))
    (fun err => ret (failure (message err))).

(** Handler of [context:getActive]. *)
Definition handleGetActive : M (Envelope string) :=
  try_catch
    (activeContextId <~ m_getActiveContextId registry ;;
     ret (success activeContextId))
    (fun err => ret (failure (message err))).

(** Handler of [context:switch]. *)
Definition handleSwitch (contextId : string) : M (Envelope SwitchData) :=
  try_catch
    (r <~ m_switch registry contextId ;;
     _ <~ onContextSwitched (Registry.current r) ;;
     ret (success {| contextId := contextId |}))
    (fun err => ret (failure (message err))).

End Handlers.

End ContextIpc.

(** ** The entry point of the main process *)

Module Index.

Definition windowIsLive (s : Process) : bool :=
  match mainWindow s with
  | Some w => negb (isDestroyed w)
  | None => false
  end.

(** [mainWindow.webContents.send(channel, x)] *)
Definition send (ch : Channel) (x : Payload) : M unit :=
  modify (fun s => set_renderer (renderer s ++ [(ch, x)]) s).

(** A new closure forwarding to [ch]. *)
Definition newForwarder (ch : Channel) : M Listener :=
  s <~ get ;;
  _ <~ modify (set_closures (S (closures s))) ;;
  ret {| closure := closures s; forwardsTo := ch |}.

Definition callCleanup (c : Cleanup) : M unit :=
  Watcher.off (cl_context c) (cl_event c) (cl_handler c).

(** [if (fileChangeCleanup) { fileChangeCleanup(); fileChangeCleanup = null; }] *)
Definition detachFileChange : M unit :=
  s <~ get ;;
  match fileChangeCleanup s with
  | Some c => _ <~ callCleanup c ;; modify (set_fileChangeCleanup None)
  | None => ret tt
  end.

(** [if (todoChangeCleanup) { todoChangeCleanup(); todoChangeCleanup = null; }] *)
Definition detachTodoChange : M unit :=
  s <~ get ;;
  match todoChangeCleanup s with
  | Some c => _ <~ callCleanup c ;; modify (set_todoChangeCleanup None)
  | None => ret tt
  end.

(** The [file-change] handler, its registration and its cleanup closure. *)
Definition attachFileChange (context : ServiceContext) : M unit :=
  fileChangeHandler <~ newForwarder file_change ;;
  _ <~ Watcher.on (ctx_id context) on_file_change fileChangeHandler ;;
  modify (set_fileChangeCleanup
            (Some {| cl_context := ctx_id context; cl_event := on_file_change;
                     cl_handler := fileChangeHandler |})).

(** The [todo-change] handler, its registration and its cleanup closure. *)
Definition attachTodoChange (context : ServiceContext) : M unit :=
  todoChangeHandler <~ newForwarder todo_change ;;
  _ <~ Watcher.on (ctx_id context) on_todo_change todoChangeHandler ;;
  modify (set_todoChangeCleanup
            (Some {| cl_context := ctx_id context; cl_event := on_todo_change;
                     cl_handler := todoChangeHandler |})).

(** The statements of [wireFileWatcherEvents], in source order. *)
Definition wireFileWatcherEvents_body (context : ServiceContext) : list (M unit) :=
  [ detachFileChange; detachTodoChange;
    attachFileChange context; attachTodoChange context ].

Definition wireFileWatcherEvents (context : ServiceContext) : M unit :=
  exec (wireFileWatcherEvents_body context).

Definition onContextSwitched (context : ServiceContext) : M unit :=
  _ <~ wireFileWatcherEvents context ;;
  s <~ get ;;
  if windowIsLive s then
    _ <~ send SSH_STATUS (StatusValue (Ssh.getStatus s)) ;;
    send context_changed (ContextChanged (ctx_id context) (ctx_type context))
  else ret tt.

(** [new ServiceContext({ id: 'local', type: 'local', ... })] *)
Definition localContext : ServiceContext :=
  {| ctx_id := "local"; ctx_type := local |}.

(** Constructing a context constructs its file watcher. *)
Definition newServiceContext (c : ServiceContext) : M unit :=
  modify (fun s => set_watchers (<[ctx_id c := Watcher.fresh]> (watchers s)) s).

Definition newSshConnectionManager : M unit :=
  modify (set_sshConnectionManager
            {| statuses := ∅; aggregate := disconnected; stateChangeListeners := [] |}).

Definition newServiceContextRegistry : M unit :=
  modify (set_contextRegistry Registry.empty).

(** [initializeIpcHandlers(contextRegistry, updaterService, sshConnectionManager)]:
    from here on requests from the renderer are served. *)
Definition initializeIpcHandlers : M unit :=
  modify (set_ipcHandlers true).

(** [sshConnectionManager.on('state-change', (status) => ...)] *)
Definition forwardSshStateChanges : M unit :=
  h <~ newForwarder SSH_STATUS ;; Ssh.onStateChange h.

(** The statements of [initializeServices], in source order (the updater
    service and the logger keep no state that is modelled here). *)
Definition initializeServices_upToWiring : list (M unit) :=
  [ newSshConnectionManager;
    newServiceContextRegistry;
    newServiceContext localContext;
    Registry.registerContext localContext;
    Registry.start localContext;
    Watcher.setNotificationManager (ctx_id localContext) ].

Definition initializeServices_afterWiring : list (M unit) :=
  [ initializeIpcHandlers;
    forwardSshStateChanges ].

Definition initializeServices_body : list (M unit) :=
  initializeServices_upToWiring
  ++ wireFileWatcherEvents_body localContext
  ++ initializeServices_afterWiring.

Definition initializeServices : M unit :=
  exec initializeServices_body.

(** [createWindow] as far as the module state goes. *)
Definition createWindow : M unit :=
  modify (set_mainWindow (Some {| isDestroyed := false |})).

(** The handler of the window's ['closed'] event. *)
Definition onWindowClosed : M unit :=
  modify (set_mainWindow None).

(** The module state when the module has been loaded and nothing has run. *)
Definition loaded : Process :=
  {| mainWindow := None; renderer := [];
     contextRegistry := Registry.empty;
     sshConnectionManager :=
       {| statuses := ∅; aggregate := disconnected; stateChangeListeners := [] |};
     network := ∅; watchers := ∅;
     fileChangeCleanup := None; todoChangeCleanup := None;
     closures := 0; ipcHandlers := false |}.

(** The registry as the context handlers see it, and the handler of
    [context:switch] wired to [onContextSwitched]. *)
Definition registryMethods : ContextIpc.RegistryMethods :=
  {| ContextIpc.m_list := Registry.list;
     ContextIpc.m_getActiveContextId := Registry.getActiveContextId;
     ContextIpc.m_switch := Registry.switch |}.

Definition contextSwitch (contextId : string) : M (ContextIpc.Envelope ContextIpc.SwitchData) :=
  ContextIpc.handleSwitch registryMethods onContextSwitched contextId.

End Index.

(** ** RankedInjectionList *)

Module RankedInjectionList.

Record ContextInjection : Type := {
  id : string;
  category : string;
  estimatedTokens : Z;                       (* a token count *)
}.

(** Arrays live in a store and are handled by reference. *)
Abbreviation Store := (list (list ContextInjection)).

(** [[...a]]: a new array holding the elements of [a]. *)
Definition spread (a : nat) : Eff Store nat :=
  st <~ get ;;
  match st !! a with
  | Some xs => _ <~ modify (fun st : Store => (st ++ [xs])%list) ;; ret (List.length st)
  | None => throw (ErrorObject "TypeError" "injections is not iterable")
  end.

Fixpoint insert {A} (compareFn : A -> A -> Z) (x : A) (l : list A) : list A :=
  match l with
  | [] => [x]
  | y :: l' => if (compareFn x y <=? 0)%Z then x :: y :: l' else y :: insert compareFn x l'
  end.

(** The order [Array.prototype.sort] leaves: stable, ascending for
    [compareFn]. *)
Fixpoint sorted {A} (compareFn : A -> A -> Z) (l : list A) : list A :=
  match l with
  | [] => []
  | x :: l' => insert compareFn x (sorted compareFn l')
  end.

(** [a.sort(compareFn)]: sorts the array [a] in place and returns [a]. *)
Definition sort (compareFn : ContextInjection -> ContextInjection -> Z) (a : nat) : Eff Store nat :=
  st <~ get ;;
  match st !! a with
  | Some xs => _ <~ modify (fun st : Store => <[a := sorted compareFn xs]> st) ;; ret a
  | None => throw (ErrorObject "TypeError" "not an array")
  end.

(** [(a, b) => b.estimatedTokens - a.estimatedTokens] *)
Definition byTokensDescending (a b : ContextInjection) : Z :=
  (estimatedTokens b - estimatedTokens a)%Z.

(** [[...injections].sort((a, b) => b.estimatedTokens - a.estimatedTokens)] *)
Definition sortedInjections (injections : nat) : Eff Store nat :=
  copy <~ spread injections ;;
  sort byTokensDescending copy.

(** The [label] of [CATEGORY_COLORS], with the fallback of the component. *)
Definition categoryLabel (c : string) : string :=
  if String.eqb c "claude-md" then "CLAUDE.md"
  else if String.eqb c "mentioned-file" then "File"
  else if String.eqb c "tool-output" then "Tool"
  else if String.eqb c "thinking-text" then "Thinking"
  else if String.eqb c "task-coordination" then "Team"
  else if String.eqb c "user-message" then "User"
  else c.

(** One rendered button: its key, its category pill and the token count
    it shows (the description and the styling are left out). *)
Record Row : Type := {
  key : string;
  label : string;
  tokens : Z;
}.

Definition row (inj : ContextInjection) : Row :=
  {| key := id inj; label := categoryLabel (category inj); tokens := estimatedTokens inj |}.

(** The component: the rows it renders, top to bottom. *)
Definition RankedInjectionList (injections : nat) : Eff Store (list Row) :=
  sortedRef <~ sortedInjections injections ;;
  st <~ get ;;
  ret (map row (default [] (st !! sortedRef))).

(** [a] may stand before [b] in the ranking. *)
Definition ranksBefore (a b : ContextInjection) : Prop :=
  (estimatedTokens b <= estimatedTokens a)%Z.

(** Rows in non-increasing order of their token counts. *)
Definition descending (rows : list Row) : Prop :=
  StronglySorted (fun r1 r2 => (tokens r2 <= tokens r1)%Z) rows.

End RankedInjectionList.

(** ** src/main/utils/metadataExtraction.ts *)

Module MetadataExtraction.

(** A line of the session file, by what [line.trim()] and [JSON.parse]
    make of it: only white space, text that [JSON.parse] rejects, or the
    value it parses to. *)
Inductive Line : Type :=
| Blank
| Malformed
| Parsed (value : json).

Definition TypeError : Thrown :=
  ErrorObject "TypeError" "Cannot read properties of null".
Definition SyntaxError : Thrown :=
  ErrorObject "SyntaxError" "Unexpected token in JSON".

(** [v.k] on a parsed value, [None] for [undefined]: reading a property
    of [null] throws, primitives and arrays have none of the properties
    the code asks for. *)
Definition prop (v : json) (k : string) : Outcome (option json) :=
  match v with
  | JNull => Threw TypeError
  | JObj fields => Returned (assoc k fields)
  | _ => Returned None
  end.

(** [k in v]: throws unless [v] is an object or an array. *)
Definition hasProp (k : string) (v : json) : Outcome bool :=
  match v with
  | JObj fields => Returned (bool_decide (is_Some (assoc k fields)))
  | JArr _ => Returned false
  | _ => Threw TypeError
  end.

Definition obind {A B} (o : Outcome A) (k : A -> Outcome B) : Outcome B :=
  match o with
  | Returned a => k a
  | Threw e => Threw e
  end.

Definition isWhiteSpace (c : ascii) : bool :=
  let n := nat_of_ascii c in
  (Nat.leb 9 n && Nat.leb n 13) || Nat.eqb n 32 || Nat.eqb n 160.

Fixpoint trimStart (s : string) : string :=
  match s with
  | EmptyString => EmptyString
  | String c s' => if isWhiteSpace c then trimStart s' else s
  end.

Fixpoint trimEnd (s : string) : string :=
  match s with
  | EmptyString => EmptyString
  | String c s' =>
      match trimEnd s' with
      | EmptyString => if isWhiteSpace c then EmptyString else String c EmptyString
      | t => String c t
      end
  end.

(** [s.trim()] *)
Definition trim (s : string) : string := trimStart (trimEnd s).

(** [s.startsWith(p)] *)
Definition startsWith (s p : string) : bool := String.prefix p s.

Definition isEmpty (s : string) : bool := String.eqb s "".

Fixpoint dropPrefix (p s : string) : option string :=
  match p, s with
  | EmptyString, _ => Some s
  | String a p', String b s' => if Ascii.eqb a b then dropPrefix p' s' else None
  | String _ _, EmptyString => None
  end.

(** The longest run of characters other than [<] that [s] starts with,
    and what follows it. *)
Fixpoint spanNotLt (s : string) : string * string :=
  match s with
  | EmptyString => (EmptyString, EmptyString)
  | String c s' =>
      if Ascii.eqb c "<"%char then (EmptyString, s)
      else let '(run, rest) := spanNotLt s' in (String c run, rest)
  end.

(** A match of [<command-name>\/([^<]+)<\/command-name>] that starts at
    the head of [s]: its capture group. *)
Definition commandNameAt (s : string) : option string :=
  match dropPrefix "<command-name>/" s with
  | Some after =>
      let '(name, rest) := spanNotLt after in
      if isEmpty name then None
      else if startsWith rest "</command-name>" then Some name
      else None
  | None => None
  end.

(** [RegExp.prototype.exec]: the leftmost match. *)
Fixpoint commandMatch (s : string) : option string :=
  match commandNameAt s with
  | Some name => Some name
  | None =>
      match s with
      | EmptyString => None
      | String _ s' => commandMatch s'
      end
  end.

Definition extractCommandName (content : string) : string :=
  match commandMatch content with
  | Some name => "/" ++ name
  | None => "/command"
  end.

Record MessagePreview : Type := {
  text : string;
  timestamp : json;
  isCommand : bool;
}.

(** What [extractFirstUserMessagePreview] resolves to. *)
Record Preview : Type := {
  p_text : string;
  p_timestamp : json;
}.

Section Extraction.

(** From [@shared/utils/contentSanitizer] and [../types]. *)
Variable isCommandOutputContent : string -> bool.
Variable sanitizeDisplayContent : string -> string.
Variable isTextContent : json -> Outcome bool.
(** [String(v)] for a value that is neither a string nor null. *)
Variable toString : json -> string.
(** [new Date().toISOString()] *)
Variable now : string.

(** [content.filter(isTextContent)] *)
Fixpoint filterText (content : list json) : Outcome (list json) :=
  match content with
  | [] => Returned []
  | block :: rest =>
      obind (isTextContent block) (fun keep =>
      obind (filterText rest) (fun kept =>
      Returned (if keep then block :: kept else kept)))
  end.

(** [.map((block) => block.text)] *)
Fixpoint texts (blocks : list json) : Outcome (list (option json)) :=
  match blocks with
  | [] => Returned []
  | block :: rest =>
      obind (prop block "text") (fun t =>
      obind (texts rest) (fun ts => Returned (t :: ts)))
  end.

(** How [Array.prototype.join] writes one element. *)
Definition joinItem (x : option json) : string :=
  match x with
  | None | Some JNull => ""
  | Some (JStr s) => s
  | Some v => toString v
  end.

(** [.join(' ')] *)
Fixpoint join (xs : list (option json)) : string :=
  match xs with
  | [] => ""
  | [x] => joinItem x
  | x :: rest => joinItem x ++ " " ++ join rest
  end.

(** The tail of [extractPreviewFromUserEntry] that both kinds of content
    share once the text is known. *)
Definition previewOfText (timestamp : json) (content : string) : option MessagePreview :=
  if startsWith content "<command-name>" then
    Some {| text := extractCommandName content; timestamp := timestamp; isCommand := true |}
  else
    let sanitized := trim (sanitizeDisplayContent content) in
    if isEmpty sanitized then None
    else Some {| text := substring 0 500 sanitized; timestamp := timestamp;
                 isCommand := false |}.

Definition extractPreviewFromUserEntry (entry : json) : Outcome (option MessagePreview) :=
  obind (prop entry "timestamp") (fun ts =>
  let timestamp := match ts with
                   | None | Some JNull => JStr now
                   | Some v => v
                   end in
  obind (prop entry "message") (fun message =>
  match message with
  | None => Returned None
  | Some message =>
      if negb (truthy message) then Returned None
      else
        obind (prop message "content") (fun content =>
        match content with
        | Some (JStr content) =>
            if isCommandOutputContent content
               || startsWith content "[Request interrupted by user"
            then Returned None
            else Returned (previewOfText timestamp content)
        | Some (JArr content) =>
            obind (filterText content) (fun blocks =>
            obind (texts blocks) (fun ts =>
            let textContent := trim (join ts) in
            if isEmpty textContent
               || startsWith textContent "[Request interrupted by user"
            then Returned None
            else Returned (previewOfText timestamp textContent)))
        | _ => Returned None
        end)
  end)).

(** [entry.type !== 'user'] *)
Definition isUser (type : option json) : bool :=
  match type with
  | Some (JStr t) => String.eqb t "user"
  | _ => false
  end.

(** The loop of [extractFirstUserMessagePreview] over the lines that
    remain, with its two variables. *)
Fixpoint previewLoop (safeMaxLines : Z) (lines : list Line) (linesRead : Z)
    (commandFallback : option Preview) : Outcome (option Preview) :=
  match lines with
  | [] => Returned commandFallback
  | line :: rest =>
      if (safeMaxLines <=? linesRead)%Z then Returned commandFallback
      else
        let linesRead := (linesRead + 1)%Z in
        match line with
        | Blank => previewLoop safeMaxLines rest linesRead commandFallback
        | Malformed => previewLoop safeMaxLines rest linesRead commandFallback
        | Parsed entry =>
            obind (prop entry "type") (fun type =>
            if negb (isUser type) then
              previewLoop safeMaxLines rest linesRead commandFallback
            else
              obind (extractPreviewFromUserEntry entry) (fun preview =>
              match preview with
              | None => previewLoop safeMaxLines rest linesRead commandFallback
              | Some preview =>
                  if negb (isCommand preview) then
                    Returned (Some {| p_text := text preview;
                                      p_timestamp := timestamp preview |})
                  else
                    previewLoop safeMaxLines rest linesRead
                      (match commandFallback with
                       | Some _ => commandFallback
                       | None => Some {| p_text := text preview;
                                         p_timestamp := timestamp preview |}
                       end)
              end))
        end
  end.

(** [extractFirstUserMessagePreview]: what the promise settles to, given
    the lines of the file; an error inside the loop is logged and thrown
    again. *)
Definition extractFirstUserMessagePreview (lines : list Line) (maxLines : Z)
    : Outcome (option Preview) :=
  let safeMaxLines := Z.max 1 maxLines in
  previewLoop safeMaxLines lines 0 None.

(** *** The words of the specification *)

(** The preview that one line contributes, if any; reading it may raise. *)
Definition linePreview (line : Line) : Outcome (option MessagePreview) :=
  match line with
  | Blank | Malformed => Returned None
  | Parsed entry =>
      obind (prop entry "type") (fun type =>
      if isUser type then extractPreviewFromUserEntry entry else Returned None)
  end.

(** The lines within the budget. *)
Definition inspected (lines : list Line) (maxLines : Z) : list Line :=
  take (Z.to_nat (Z.max 1 maxLines)) lines.

Definition asPreview (p : MessagePreview) : Preview :=
  {| p_text := text p; p_timestamp := timestamp p |}.

(** A line settles the call when it is a non-command user message or
    when reading it raises. *)
Definition settles (r : Outcome (option MessagePreview)) : bool :=
  match r with
  | Returned (Some p) => negb (isCommand p)
  | Returned None => false
  | Threw _ => true
  end.

Definition commandPreview (r : Outcome (option MessagePreview)) : option Preview :=
  match r with
  | Returned (Some p) => if isCommand p then Some (asPreview p) else None
  | _ => None
  end.

(** The lines scanned: those within the budget, up to the first one
    that settles the call. *)
Fixpoint upToSettling (rs : list (Outcome (option MessagePreview)))
    : list (Outcome (option MessagePreview)) * option (Outcome (option MessagePreview)) :=
  match rs with
  | [] => ([], None)
  | r :: rest =>
      if settles r then ([], Some r)
      else let '(before, hit) := upToSettling rest in (r :: before, hit)
  end.

(** The result, given what each scanned line contributes and the
    fallback held so far: the first non-command user message, else the
    earliest command preview, else null; a line that raises before that
    point makes the call raise. *)
Definition settle (fallback : option Preview) (rs : list (Outcome (option MessagePreview)))
    : Outcome (option Preview) :=
  let '(before, hit) := upToSettling rs in
  match hit with
  | Some (Returned (Some p)) => Returned (Some (asPreview p))
  | Some (Threw e) => Threw e
  | _ => Returned (match fallback with
                   | Some _ => fallback
                   | None => head (omap commandPreview before)
                   end)
  end.

(** The result as the claim words it, over the lines within the budget. *)
Definition firstUserMessagePreview (lines : list Line) (maxLines : Z)
    : Outcome (option Preview) :=
  settle None (map linePreview (inspected lines maxLines)).

(** The claim read without the proviso: a line that cannot be read as
    an entry counts as skipped. *)
Definition lenient (r : Outcome (option MessagePreview)) : Outcome (option MessagePreview) :=
  match r with
  | Threw _ => Returned None
  | _ => r
  end.

Definition firstUserMessagePreview_lenient (lines : list Line) (maxLines : Z)
    : Outcome (option Preview) :=
  settle None (map (fun l => lenient (linePreview l)) (inspected lines maxLines)).

(** A non-command preview carries at most 500 characters. *)
Definition withinLimit (r : Outcome (option MessagePreview)) : bool :=
  match r with
  | Returned (Some p) => isCommand p || Nat.leb (String.length (text p)) 500
  | _ => true
  end.

(** *** extractCwd *)

(** The loop of [extractCwd]. *)
Fixpoint cwdLoop (lines : list Line) : Outcome (option json) :=
  match lines with
  | [] => Returned None
  | Blank :: rest => cwdLoop rest
  | Malformed :: _ => Threw SyntaxError
  | Parsed entry :: rest =>
      obind (hasProp "cwd" entry) (fun has =>
      if has then
        obind (prop entry "cwd") (fun cwd =>
        match cwd with
        | Some cwd => if truthy cwd then Returned (Some cwd) else cwdLoop rest
        | None => cwdLoop rest
        end)
      else cwdLoop rest)
  end.

(** [extractCwd]: [fileExists] is what [fsProvider.exists(filePath)]
    resolves to; an error inside the loop is logged and swallowed. *)
Definition extractCwd (fileExists : bool) (lines : list Line) : Outcome (option json) :=
  if negb fileExists then Returned None
  else
    match cwdLoop lines with
    | Returned r => Returned r
    | Threw _ => Returned None
    end.

End Extraction.

(** An entry that contains a [cwd] field, and that field. *)
Definition cwdField (line : Line) : option json :=
  match line with
  | Parsed (JObj fields) => assoc "cwd" fields
  | _ => None
  end.

(** The same with the test the code makes: the field is there and truthy. *)
Definition cwdValue (line : Line) : option json :=
  match cwdField line with
  | Some v => if truthy v then Some v else None
  | None => None
  end.

(** A line at which the scan of [extractCwd] aborts: text that is not
    JSON, or a value that is neither an object nor an array. *)
Definition aborts (line : Line) : bool :=
  match line with
  | Malformed => true
  | Parsed (JObj _) | Parsed (JArr _) => false
  | Parsed _ => true
  | Blank => false
  end.

(** The first line that decides [extractCwd] as the code has it, and the
    result it gives. *)
Definition decides (line : Line) : bool :=
  bool_decide (is_Some (cwdValue line)) || aborts line.

Definition firstCwd (lines : list Line) : option json :=
  match List.find decides lines with
  | Some line => cwdValue line
  | None => None
  end.



(** A user entry whose message is the string [content]. *)
Definition userEntry (ts content : string) : Line :=
  Parsed (JObj [ ("type", JStr "user"); ("timestamp", JStr ts);
                 ("message", JObj [ ("role", JStr "user"); ("content", JStr content) ]) ]).

(** An entry that carries [cwd]. *)
Definition entryWithCwd (cwd : string) : Line :=
  Parsed (JObj [ ("type", JStr "user"); ("cwd", JStr cwd) ]).

End MetadataExtraction.

(** ** The vocabulary of the properties *)

Module Wiring.

(** Context [id] has a listener attached that forwards to the renderer. *)
Definition attached (s : Process) (id : string) : Prop :=
  exists ev, Watcher.listeners ev (Watcher.watcherOf s id) <> [].

(** Nothing is attached anywhere. *)
Definition silent (s : Process) : Prop :=
  forall id, ~ attached s id.

(** Whatever is attached belongs to context [id]. *)
Definition onlyFrom (id : string) (s : Process) : Prop :=
  forall a, attached s a -> a = id.

(** Listeners of at most one context are attached. *)
Definition singleSource (s : Process) : Prop :=
  forall a b, attached s a -> attached s b -> a = b.

(** The listeners a cleanup closure accounts for on the watcher of [id]. *)
Definition accountedFor (c : option Cleanup) (id : string) : list Listener :=
  match c with
  | Some c => if decide (cl_context c = id) then [cl_handler c] else []
  | None => []
  end.

Definition sameContext (c1 c2 : option Cleanup) : Prop :=
  match c1, c2 with
  | Some c1, Some c2 => cl_context c1 = cl_context c2
  | None, None => True
  | _, _ => False
  end.

Definition forEvent (ev : WatcherEventName) (c : option Cleanup) : Prop :=
  match c with
  | Some c => cl_event c = ev
  | None => True
  end.

(** The listeners attached to the watchers are exactly those the two
    cleanup closures will remove. *)
Record Accounted (s : Process) : Prop := {
  acc_file : forall id,
    fileChangeListeners (Watcher.watcherOf s id) = accountedFor (fileChangeCleanup s) id;
  acc_todo : forall id,
    todoChangeListeners (Watcher.watcherOf s id) = accountedFor (todoChangeCleanup s) id;
  acc_file_event : forEvent on_file_change (fileChangeCleanup s);
  acc_todo_event : forEvent on_todo_change (todoChangeCleanup s);
}.

(** The state the module keeps between two rewiring passes: the
    listeners are accounted for and both closures are about one context. *)
Definition Wired (s : Process) : Prop :=
  Accounted s /\ sameContext (fileChangeCleanup s) (todoChangeCleanup s).

(** The part of the state that the event wiring does not touch. *)
Definition surroundings (s : Process)
    : option BrowserWindow * list (Channel * Payload) * ServiceContextRegistry
      * SshConnectionManager * gmap string string * bool :=
  (mainWindow s, renderer s, contextRegistry s, sshConnectionManager s, network s,
   ipcHandlers s).

(** The part of the state that makes up the event wiring. *)
Definition wiring (s : Process)
    : gmap string FileWatcher * option Cleanup * option Cleanup * nat :=
  (watchers s, fileChangeCleanup s, todoChangeCleanup s, closures s).

(** Exactly the two forwarders made by one rewiring pass that began when
    [n] closures existed are attached to the watcher of [id]. *)
Definition wiredTo (id : string) (n : nat) (s : Process) : Prop :=
  fileChangeListeners (Watcher.watcherOf s id) = [ {| closure := n; forwardsTo := file_change |} ]
  /\ todoChangeListeners (Watcher.watcherOf s id) = [ {| closure := S n; forwardsTo := todo_change |} ]
  /\ fileChangeCleanup s
     = Some {| cl_context := id; cl_event := on_file_change;
               cl_handler := {| closure := n; forwardsTo := file_change |} |}
  /\ todoChangeCleanup s
     = Some {| cl_context := id; cl_event := on_todo_change;
               cl_handler := {| closure := S n; forwardsTo := todo_change |} |}
  /\ closures s = S (S n).

(** What the specification asks of a rewiring pass for [context] that
    starts in [s]: the pass goes through the states [s], [s1] (file-change
    detached), [s2] (todo-change detached), [s3] (file-change attached)
    and [s4] (todo-change attached); up to [s1] only what was attached
    before is attached, at [s2] nothing is, from [s3] on only listeners of
    [context] are; no state has listeners of two contexts; the pass leaves
    the two new forwarders on the watcher of [context], a state fit for
    the next pass, and everything else as it was. *)
Definition detachBeforeAttach (context : ServiceContext) (s : Process) : Prop :=
  exists s1 s2 s3 s4,
    points (Index.wireFileWatcherEvents_body context) s = [s; s1; s2; s3; s4]
    /\ Index.wireFileWatcherEvents context s = (Returned tt, s4)
    /\ (forall a, attached s1 a -> attached s a)
    /\ silent s2
    /\ onlyFrom (ctx_id context) s3
    /\ onlyFrom (ctx_id context) s4
    /\ Forall singleSource [s; s1; s2; s3; s4]
    /\ wiredTo (ctx_id context) (closures s) s4
    /\ Wired s4
    /\ surroundings s4 = surroundings s.


(** Every key of the registry is the identifier of its context. *)
Definition keyed (r : ServiceContextRegistry) : Prop :=
  forall k c, contexts r !! k = Some c -> ctx_id c = k.

End Wiring.

(** ** Scenarios *)

Module Scenario.

Definition set_network (v : gmap string string) (s : Process) : Process :=
  {| mainWindow := mainWindow s; renderer := renderer s; contextRegistry := contextRegistry s;
     sshConnectionManager := sshConnectionManager s; network := v;
     watchers := watchers s; fileChangeCleanup := fileChangeCleanup s;
     todoChangeCleanup := todoChangeCleanup s; closures := closures s;
     ipcHandlers := ipcHandlers s |}.

(** After [initializeServices], before any window exists. *)
Definition started : Process := snd (Index.initializeServices Index.loaded).

(** After [createWindow]. *)
Definition windowed : Process := snd (Index.createWindow started).

Definition remoteContext : ServiceContext :=
  {| ctx_id := "ssh-host1"; ctx_type := ssh |}.

(** Start-up has come to the point where the local context is wired. *)
Definition beforeWiring : Process :=
  snd (exec Index.initializeServices_upToWiring Index.loaded).

(** The window has been closed again (the application keeps running). *)
Definition windowClosed : Process := snd (Index.onWindowClosed windowed).

(** A remote context has been registered as well; the host refuses
    connections. *)
Definition withRemote : Process :=
  set_network {[ "ssh-host1" := "ECONNREFUSED" ]}
    (snd (exec [ Index.newServiceContext remoteContext;
                 Registry.registerContext remoteContext ] windowed)).

(** What a switch to the unreachable host leaves behind. *)
Definition afterFailedSwitch : Process :=
  snd (Registry.switch "ssh-host1" withRemote).

Definition threeInjections : list RankedInjectionList.ContextInjection :=
  [ {| RankedInjectionList.id := "a"; RankedInjectionList.category := "claude-md";
       RankedInjectionList.estimatedTokens := 10 |};
    {| RankedInjectionList.id := "b"; RankedInjectionList.category := "tool-output";
       RankedInjectionList.estimatedTokens := 30 |};
    {| RankedInjectionList.id := "c"; RankedInjectionList.category := "user-message";
       RankedInjectionList.estimatedTokens := 30 |} ].

(** The collaborators of the preview extraction at their simplest: no
    content is command output, sanitizing changes nothing, every block
    is a text block. *)
Definition extractPreview (lines : list MetadataExtraction.Line) (maxLines : Z)
    : Outcome (option MetadataExtraction.Preview) :=
  MetadataExtraction.extractFirstUserMessagePreview
    (fun _ => false) (fun content => content) (fun _ => Returned true) (fun _ => "")
    "2026-01-01T00:00:00.000Z" lines maxLines.

Definition previewAsWorded (lines : list MetadataExtraction.Line) (maxLines : Z)
    : Outcome (option MetadataExtraction.Preview) :=
  MetadataExtraction.firstUserMessagePreview_lenient
    (fun _ => false) (fun content => content) (fun _ => Returned true) (fun _ => "")
    "2026-01-01T00:00:00.000Z" lines maxLines.

(** A session that opens with a slash command. *)
Definition commandThenHello : list MetadataExtraction.Line :=
  [ MetadataExtraction.userEntry "t0" "<command-name>/clear</command-name>";
    MetadataExtraction.Malformed;
    MetadataExtraction.Blank;
    MetadataExtraction.userEntry "t1" "  hello  " ].

(** A file whose first line is the JSON text [null]. *)
Definition nullThenHello : list MetadataExtraction.Line :=
  [ MetadataExtraction.Parsed JNull;
    MetadataExtraction.userEntry "t1" "hello" ].

End Scenario.

(** ** Shutting down, and what the main process does between passes *)

Module Lifecycle.

Section Shutdown.

(** [contextRegistry.dispose()], [sshConnectionManager.dispose()] and
    [removeIpcHandlers()]: their code is elsewhere. *)
Variable registryDispose : M unit.
Variable sshDispose : M unit.
Variable removeIpcHandlers : M unit.

(** What [shutdownServices] does once the listeners are off. *)
Definition shutdownServices_disposal : list (M unit) :=
  [ registryDispose; sshDispose; removeIpcHandlers ].

(** The statements of [shutdownServices], in source order, for services
    that have been initialized. *)
Definition shutdownServices_body : list (M unit) :=
  ([ Index.detachFileChange; Index.detachTodoChange ] ++ shutdownServices_disposal)%list.

Definition shutdownServices : M unit :=
  exec shutdownServices_body.

End Shutdown.

(** The channel a watcher event of class [ev] is forwarded on. *)
Definition channelOf (ev : WatcherEventName) : Channel :=
  match ev with
  | on_file_change => file_change
  | on_todo_change => todo_change
  end.

(** What happens to the main process after start-up, one event at a
    time: a rewiring pass, the callback of a context switch, an event of
    a watcher, a status change of the connection manager, a window
    created or closed. *)
Inductive Happening : Type :=
| Rewired (context : ServiceContext)
| Switched (context : ServiceContext)
| Watched (id : string) (ev : WatcherEventName) (event : json)
| StatusChanged (status : ConnectionStatus)
| WindowCreated
| WindowClosed.

Definition happen (h : Happening) : M unit :=
  match h with
  | Rewired context => Index.wireFileWatcherEvents context
  | Switched context => Index.onContextSwitched context
  | Watched id ev event => Watcher.emit id ev event
  | StatusChanged status => Ssh.emitStateChange status
  | WindowCreated => Index.createWindow
  | WindowClosed => Index.onWindowClosed
  end.

(** No watcher has more than one listener for an event class. *)
Definition noLeak (s : Process) : Prop :=
  forall id ev, List.length (Watcher.listeners ev (Watcher.watcherOf s id)) <= 1.

End Lifecycle.

(** ** Registering and removing IPC handlers *)

Module Ipc.

(** The handlers that the two modules register. *)
Inductive Handler : Type :=
| contextList
| contextGetActive
| contextSwitch
| handleCheck
| handleDownload
| handleInstall.

(** [ipcMain]: the handler of each channel that has one. *)
Abbreviation IpcMain := (gmap string Handler).

(** [ipcMain.handle(channel, listener)]: a channel takes one handler, a
    second one is refused with an error. *)
Definition handle (channel : string) (h : Handler) : Eff IpcMain unit :=
  fun t : IpcMain =>
    match t !! channel with
    | Some _ =>
        throw (ErrorObject "Error" ("Attempted to register a second handler for " ++ channel)) t
    | None => modify (fun t : IpcMain => <[channel := h]> t) t
    end.

(** [ipcMain.removeHandler(channel)] *)
Definition removeHandler (channel : string) : Eff IpcMain unit :=
  modify (fun t : IpcMain => delete channel t).

Section ContextChannels.

(** From [@preload/constants/ipcChannels]. *)
Variable CONTEXT_LIST : string.
Variable CONTEXT_GET_ACTIVE : string.
Variable CONTEXT_SWITCH : string.

Definition registerContextHandlers : Eff IpcMain unit :=
  exec [ handle CONTEXT_LIST contextList;
         handle CONTEXT_GET_ACTIVE contextGetActive;
         handle CONTEXT_SWITCH contextSwitch ].

Definition removeContextHandlers : Eff IpcMain unit :=
  exec [ removeHandler CONTEXT_LIST;
         removeHandler CONTEXT_GET_ACTIVE;
         removeHandler CONTEXT_SWITCH ].

End ContextChannels.

Definition registerUpdaterHandlers : Eff IpcMain unit :=
  exec [ handle "updater:check" handleCheck;
         handle "updater:download" handleDownload;
         handle "updater:install" handleInstall ].

Definition removeUpdaterHandlers : Eff IpcMain unit :=
  exec [ removeHandler "updater:check";
         removeHandler "updater:download";
         removeHandler "updater:install" ].

End Ipc.

(** ** The updater handlers *)

Module UpdaterIpc.

Section Handlers.

(** The world the updater service lives in, and its three methods. *)
Variable W : Type.
Variable checkForUpdates : Eff W unit.
Variable downloadUpdate : Eff W unit.
Variable quitAndInstall : Eff W unit.

(** [try { await updaterService.checkForUpdates(); } catch (error) { log }] *)
Definition handleCheck : Eff W unit :=
  try_catch checkForUpdates (fun _ => ret tt).

Definition handleDownload : Eff W unit :=
  try_catch downloadUpdate (fun _ => ret tt).

Definition handleInstall : Eff W unit :=
  try_catch quitAndInstall (fun _ => ret tt).

End Handlers.

End UpdaterIpc.

(** ** BashToolViewer and ContextSwitchOverlay *)

Module Labels.

(** [s.slice(0, n)] for a string. *)
Definition slice0 (n : nat) (s : string) : string := substring 0 n s.

(** The file name label of [BashToolViewer]: the description, cut to 57
    characters and an ellipsis when it has more than 60, or "bash" when
    there is none. *)
Definition fileName (description : option string) : string :=
  match description with
  | Some description =>
      if MetadataExtraction.isEmpty description then "bash"
      else if Nat.ltb 60 (String.length description)
           then slice0 57 description ++ "..."
           else description
  | None => "bash"
  end.

(** [s.replace(/^ssh-/, '')] *)
Definition withoutSshPrefix (s : string) : string :=
  match MetadataExtraction.dropPrefix "ssh-" s with
  | Some rest => rest
  | None => s
  end.

(** The label of [ContextSwitchOverlay]. *)
Definition contextLabel (targetId : option string) : string :=
  match targetId with
  | Some targetId =>
      if String.eqb targetId "local" then "Local" else withoutSshPrefix targetId
  | None => "Unknown"
  end.

(** The overlay: nothing unless a switch is under way, else its text. *)
Definition ContextSwitchOverlay (isContextSwitching : bool) (targetId : option string)
    : option string :=
  if isContextSwitching then Some ("Switching to " ++ contextLabel targetId ++ "...")
  else None.

(** [c] occurs in [s]. *)
Fixpoint occurs (c : ascii) (s : string) : bool :=
  match s with
  | EmptyString => false
  | String c' s' => Ascii.eqb c c' || occurs c s'
  end.

End Labels.

(** * Properties *)

Local Open Scope list_scope.

(** ** RankedInjectionList *)

Section RankedProofs.
Import RankedInjectionList.

Lemma insert_Permutation {A} (cmp : A -> A -> Z) (x : A) (l : list A) :
  Permutation (x :: l) (insert cmp x l).
Proof.
  induction l as [|y l IH]; simpl; [reflexivity|].
  destruct (cmp x y <=? 0)%Z; [reflexivity|].
  rewrite perm_swap. now apply perm_skip.
Qed.

Lemma sorted_Permutation {A} (cmp : A -> A -> Z) (l : list A) :
  Permutation l (sorted cmp l).
Proof.
  induction l as [|x l IH]; simpl; [reflexivity|].
  rewrite <- insert_Permutation. now apply perm_skip.
Qed.

Lemma insert_descending (x : ContextInjection) (l : list ContextInjection) :
  StronglySorted ranksBefore l -> StronglySorted ranksBefore (insert byTokensDescending x l).
Proof.
  induction 1 as [|y l Hl IH Hy]; simpl.
  - repeat constructor.
  - unfold byTokensDescending at 1.
    destruct (Z.leb_spec (estimatedTokens y - estimatedTokens x) 0) as [Hle|Hgt].
    + constructor; [now constructor|].
      constructor; [unfold ranksBefore; lia|].
      eapply Forall_impl; [exact Hy|]. unfold ranksBefore. intros z Hz. simpl in Hz. lia.
    + constructor; [exact IH|].
      rewrite <- insert_Permutation.
      constructor; [unfold ranksBefore; lia | exact Hy].
Qed.

Lemma sorted_descending (l : list ContextInjection) :
  StronglySorted ranksBefore (sorted byTokensDescending l).
Proof.
  induction l as [|x l IH]; simpl; [constructor|]. now apply insert_descending.
Qed.

Lemma rows_descending (l : list ContextInjection) :
  StronglySorted ranksBefore l -> descending (map row l).
Proof.
  induction 1 as [|y l Hl IH Hy]; simpl; constructor; [exact IH|].
  rewrite Forall_map. exact Hy.
Qed.

(** C8. The rows that RankedInjectionList renders are in non-increasing
    order of estimatedTokens and are the rows of the entries it was given;
    the array passed in, like every array that existed before the call,
    holds afterwards what it held before: the sort works on a new array. *)
Theorem ranked_rows_descending_input_kept
    (st : Store) (injections : nat) (xs : list ContextInjection) :
  st !! injections = Some xs ->
  exists rows st',
    RankedInjectionList.RankedInjectionList injections st = (Returned rows, st')
    /\ descending rows
    /\ Permutation (map row xs) rows
    /\ st' !! injections = Some xs
    /\ (forall a, a < List.length st -> st' !! a = st !! a)
    /\ st' !! List.length st = Some (sorted byTokensDescending xs).
Proof.
  intros Hxs.
  assert (Hlt : injections < List.length st) by (eapply lookup_lt_Some; eauto).
  assert (Hnew : (st ++ [xs]) !! List.length st = Some xs).
  { rewrite lookup_app_r by lia. now rewrite Nat.sub_diag. }
  exists (map row (sorted byTokensDescending xs)),
         (<[List.length st := sorted byTokensDescending xs]> (st ++ [xs])).
  assert (Hset : (<[List.length st := sorted byTokensDescending xs]> (st ++ [xs]))
                   !! List.length st = Some (sorted byTokensDescending xs)).
  { apply list_lookup_insert_eq. rewrite length_app. simpl. lia. }
  split.
  { unfold RankedInjectionList.RankedInjectionList, sortedInjections, spread, sort,
      Js.bind, Js.get, Js.modify, Js.ret.
    rewrite Hxs. rewrite Hnew. now rewrite Hset. }
  split; [apply rows_descending, sorted_descending|].
  split; [apply Permutation_map, sorted_Permutation|].
  assert (Hold : forall a, a < List.length st ->
            (<[List.length st := sorted byTokensDescending xs]> (st ++ [xs])) !! a = st !! a).
  { intros a Ha. rewrite list_lookup_insert_ne by lia. now rewrite lookup_app_l. }
  split; [rewrite Hold by exact Hlt; exact Hxs|].
  split; [exact Hold | exact Hset].
Qed.

End RankedProofs.

(** The theorem at a store holding one array of three injections. *)
Lemma ranked_rows_witness :
  exists rows st',
    RankedInjectionList.RankedInjectionList 0 [Scenario.threeInjections] = (Returned rows, st')
    /\ RankedInjectionList.descending rows
    /\ Permutation (map RankedInjectionList.row Scenario.threeInjections) rows
    /\ st' !! 0 = Some Scenario.threeInjections
    /\ (forall a, a < List.length [Scenario.threeInjections] ->
          st' !! a = [Scenario.threeInjections] !! a)
    /\ st' !! List.length [Scenario.threeInjections]
       = Some (RankedInjectionList.sorted RankedInjectionList.byTokensDescending
                 Scenario.threeInjections).
Proof.
  apply (ranked_rows_descending_input_kept [Scenario.threeInjections] 0).
  reflexivity.
Defined.

Example ranked_rows_example :
  fst (RankedInjectionList.RankedInjectionList 0 [Scenario.threeInjections])
  = Returned [ {| RankedInjectionList.key := "b"; RankedInjectionList.label := "Tool";
                  RankedInjectionList.tokens := 30 |};
               {| RankedInjectionList.key := "c"; RankedInjectionList.label := "User";
                  RankedInjectionList.tokens := 30 |};
               {| RankedInjectionList.key := "a"; RankedInjectionList.label := "CLAUDE.md";
                  RankedInjectionList.tokens := 10 |} ].
Proof. reflexivity. Qed.

(** ** extractCwd *)

Section CwdProofs.
Import MetadataExtraction.

Lemma cwdLoop_decided (line : Line) (rest : list Line) :
  decides line = true ->
  match cwdLoop (line :: rest) with
  | Returned r => r = cwdValue line
  | Threw _ => cwdValue line = None
  end.
Proof.
  unfold decides, cwdValue. destruct line as [| |v]; simpl; try discriminate; [easy|].
  destruct v as [|b|n|str|items|fields]; simpl; try easy.
  destruct (assoc "cwd" fields) as [cwd|] eqn:Hcwd; simpl; [|discriminate].
  destruct (truthy cwd); simpl; [reflexivity | discriminate].
Qed.

Lemma cwdLoop_passed (line : Line) (rest : list Line) :
  decides line = false -> cwdLoop (line :: rest) = cwdLoop rest.
Proof.
  unfold decides, cwdValue. destruct line as [| |v]; simpl; try discriminate; [easy|].
  destruct v as [|b|n|str|items|fields]; simpl; try easy.
  destruct (assoc "cwd" fields) as [cwd|] eqn:Hcwd; simpl; [|reflexivity].
  destruct (truthy cwd); simpl; [discriminate | reflexivity].
Qed.

Lemma cwdLoop_firstCwd (lines : list Line) :
  match cwdLoop lines with
  | Returned r => r = firstCwd lines
  | Threw _ => firstCwd lines = None
  end.
Proof.
  induction lines as [|line rest IH]; [reflexivity|].
  unfold firstCwd. cbn [List.find].
  destruct (decides line) eqn:Hd.
  - now apply cwdLoop_decided.
  - rewrite cwdLoop_passed by exact Hd. exact IH.
Qed.



End CwdProofs.



(** ** extractFirstUserMessagePreview *)

Section PreviewProofs.
Import MetadataExtraction.

Variable isCommandOutputContent : string -> bool.
Variable sanitizeDisplayContent : string -> string.
Variable isTextContent : json -> Outcome bool.
Variable toString : json -> string.
Variable now : string.

Local Abbreviation extractPreview :=
  (extractPreviewFromUserEntry isCommandOutputContent sanitizeDisplayContent
     isTextContent toString now).
Local Abbreviation loop :=
  (previewLoop isCommandOutputContent sanitizeDisplayContent isTextContent toString now).
Local Abbreviation extract :=
  (extractFirstUserMessagePreview isCommandOutputContent sanitizeDisplayContent
     isTextContent toString now).
Local Abbreviation contribution :=
  (linePreview isCommandOutputContent sanitizeDisplayContent isTextContent toString now).
Local Abbreviation worded :=
  (firstUserMessagePreview isCommandOutputContent sanitizeDisplayContent
     isTextContent toString now).
Local Abbreviation wordedLenient :=
  (firstUserMessagePreview_lenient isCommandOutputContent sanitizeDisplayContent
     isTextContent toString now).

Lemma substring_length (n : nat) (s : string) :
  String.length (substring 0 n s) <= n.
Proof.
  revert s. induction n as [|n IH]; intros [|c s]; simpl; try lia.
  specialize (IH s). lia.
Qed.

Lemma previewOfText_withinLimit (ts : json) (content : string) :
  withinLimit (Returned (previewOfText sanitizeDisplayContent ts content)) = true.
Proof.
  unfold previewOfText.
  destruct (startsWith content "<command-name>"); [reflexivity|].
  destruct (isEmpty _); [reflexivity|]. simpl.
  apply Nat.leb_le, substring_length.
Qed.

Lemma extractPreview_withinLimit (entry : json) :
  withinLimit (extractPreview entry) = true.
Proof.
  unfold extractPreviewFromUserEntry.
  destruct (prop entry "timestamp") as [ts|]; [|reflexivity]. cbn [obind].
  destruct (prop entry "message") as [[message|]|]; try reflexivity. cbn [obind].
  destruct (negb (truthy message)); [reflexivity|].
  destruct (prop message "content") as [[content|]|]; try reflexivity. cbn [obind].
  destruct content as [|b|n|str|items|fields]; try reflexivity.
  - destruct (_ || _); [reflexivity|]. apply previewOfText_withinLimit.
  - destruct (filterText isTextContent items) as [blocks|]; [|reflexivity]. cbn [obind].
    destruct (texts blocks) as [ts'|]; [|reflexivity]. cbn [obind].
    destruct (_ || _); [reflexivity|]. apply previewOfText_withinLimit.
Qed.

Lemma contribution_withinLimit (line : Line) :
  withinLimit (contribution line) = true.
Proof.
  destruct line as [| |entry]; try reflexivity. simpl.
  destruct (prop entry "type") as [type|]; [|reflexivity]. cbn [obind].
  destruct (isUser type); [apply extractPreview_withinLimit | reflexivity].
Qed.

(** One turn of the loop, by what the line contributes. *)
Lemma loop_step (M : Z) (line : Line) (rest : list Line) (k : Z) (fb : option Preview) :
  (k < M)%Z ->
  loop M (line :: rest) k fb
  = match contribution line with
    | Threw e => Threw e
    | Returned None => loop M rest (k + 1)%Z fb
    | Returned (Some p) =>
        if isCommand p then
          loop M rest (k + 1)%Z (match fb with Some _ => fb | None => Some (asPreview p) end)
        else Returned (Some (asPreview p))
    end.
Proof.
  intros Hk. cbn [previewLoop].
  destruct (Z.leb_spec M k) as [?|_]; [lia|].
  destruct line as [| |entry]; try reflexivity. cbn [linePreview].
  destruct (prop entry "type") as [type|]; [|reflexivity]. cbn [obind].
  destruct (isUser type); cbn [negb]; [|reflexivity].
  destruct (extractPreview entry) as [[p|]|]; try reflexivity. cbn [obind].
  destruct (isCommand p); reflexivity.
Qed.

Lemma settle_step (fb : option Preview) (r : Outcome (option MessagePreview))
    (rs : list (Outcome (option MessagePreview))) :
  settle fb (r :: rs)
  = match r with
    | Threw e => Threw e
    | Returned None => settle fb rs
    | Returned (Some p) =>
        if isCommand p then
          settle (match fb with Some _ => fb | None => Some (asPreview p) end) rs
        else Returned (Some (asPreview p))
    end.
Proof.
  unfold settle. cbn [upToSettling].
  destruct r as [[p|]|e]; cbn [settles]; try reflexivity.
  - destruct (isCommand p) eqn:Hp; cbn [negb]; [|reflexivity].
    destruct (upToSettling rs) as [before hit].
    destruct hit as [[[q|]|e]|]; destruct fb; try reflexivity;
      simpl; rewrite Hp; reflexivity.
  - destruct (upToSettling rs) as [before hit]. reflexivity.
Qed.

Lemma loop_settles (M : Z) (lines : list Line) (k : Z) (fb : option Preview) :
  loop M lines k fb = settle fb (map contribution (take (Z.to_nat (M - k)) lines)).
Proof.
  revert k fb. induction lines as [|line rest IH]; intros k fb.
  - rewrite take_nil. now destruct fb.
  - destruct (Z.le_gt_cases M k) as [Hge|Hlt].
    + replace (Z.to_nat (M - k)) with 0 by lia. cbn [previewLoop take map].
      destruct (Z.leb_spec M k); [now destruct fb | lia].
    + rewrite loop_step by lia.
      replace (Z.to_nat (M - k)) with (S (Z.to_nat (M - (k + 1)))) by lia.
      cbn [take map]. rewrite settle_step.
      destruct (contribution line) as [[p|]|e]; try reflexivity; [|apply IH].
      destruct (isCommand p); [apply IH | reflexivity].
Qed.

Lemma lenient_when_none_raises (ls : list Line) :
  forallb (fun l => match contribution l with Threw _ => false | _ => true end) ls = true ->
  map (fun l => lenient (contribution l)) ls = map contribution ls.
Proof.
  induction ls as [|l ls IH]; [reflexivity|]. cbn [forallb map].
  intros [Hl Hls]%andb_prop. rewrite IH by exact Hls.
  destruct (contribution l); [reflexivity | discriminate].
Qed.

(** C9, as amended. extractFirstUserMessagePreview looks at the first
    max(1, maxLines) lines only; blank lines and lines that are not JSON
    contribute nothing; it resolves to the first non-command user preview
    among them (at most 500 characters of text), else to the earliest
    command preview, else to null; a line that raises before that point
    (one that parses to null) makes the call reject. Where no line within
    the budget raises, that is the result as the claim words it. *)
Theorem first_user_preview_within_budget (lines : list Line) (maxLines : Z) :
  extract lines maxLines = worded lines maxLines
  /\ extract lines maxLines = extract (inspected lines maxLines) maxLines
  /\ (Z.of_nat (List.length (inspected lines maxLines)) <= Z.max 1 maxLines)%Z
  /\ contribution Malformed = Returned None
  /\ contribution (Parsed JNull) = Threw TypeError
  /\ forallb (fun l => withinLimit (contribution l)) lines = true
  /\ (forallb (fun l => match contribution l with Threw _ => false | _ => true end)
        (inspected lines maxLines) = true ->
      extract lines maxLines = wordedLenient lines maxLines).
Proof.
  assert (Hchar : forall ls, extract ls maxLines = worded ls maxLines).
  { intros ls. unfold extractFirstUserMessagePreview, firstUserMessagePreview, inspected.
    rewrite loop_settles. now rewrite Z.sub_0_r. }
  split; [apply Hchar|].
  split.
  { rewrite !Hchar. unfold firstUserMessagePreview, inspected.
    now rewrite take_take, Nat.min_id. }
  split; [unfold inspected; rewrite length_take; lia|].
  split; [reflexivity|]. split; [reflexivity|].
  split.
  { apply forallb_forall. intros l _. apply contribution_withinLimit. }
  intros Hnone. rewrite Hchar.
  unfold firstUserMessagePreview, firstUserMessagePreview_lenient.
  now rewrite lenient_when_none_raises.
Qed.

End PreviewProofs.

(** The theorem at a session of four lines, none of which raises. *)
Lemma first_user_preview_witness :
  Scenario.extractPreview Scenario.commandThenHello 200
  = Scenario.previewAsWorded Scenario.commandThenHello 200.
Proof.
  destruct (first_user_preview_within_budget
              (fun _ => false) (fun content => content) (fun _ => Returned true)
              (fun _ => "") "2026-01-01T00:00:00.000Z"
              Scenario.commandThenHello 200) as (_ & _ & _ & _ & _ & _ & H).
  exact (H eq_refl).
Defined.

Example first_user_preview_examples :
  Scenario.extractPreview Scenario.commandThenHello 200
  = Returned (Some {| MetadataExtraction.p_text := "hello";
                      MetadataExtraction.p_timestamp := JStr "t1" |})
  /\ Scenario.extractPreview Scenario.commandThenHello 3
     = Returned (Some {| MetadataExtraction.p_text := "/clear";
                         MetadataExtraction.p_timestamp := JStr "t0" |})
  /\ Scenario.extractPreview Scenario.commandThenHello (-5)
     = Returned (Some {| MetadataExtraction.p_text := "/clear";
                         MetadataExtraction.p_timestamp := JStr "t0" |})
  /\ Scenario.extractPreview [MetadataExtraction.Malformed; MetadataExtraction.Blank] 200
     = Returned None.
Proof. repeat split; reflexivity. Qed.

(** C9, as the claim words it, fails: the first line is the JSON text
    null, the second a plain user message within the budget; the claim
    gives the preview of that message, the call rejects with the
    TypeError raised on reading [entry.type]. *)
Lemma first_user_preview_rejects_on_null :
  Scenario.previewAsWorded Scenario.nullThenHello 200
  = Returned (Some {| MetadataExtraction.p_text := "hello";
                      MetadataExtraction.p_timestamp := JStr "t1" |})
  /\ Scenario.extractPreview Scenario.nullThenHello 200 = Threw MetadataExtraction.TypeError
  /\ Scenario.extractPreview Scenario.nullThenHello 200
     <> Scenario.previewAsWorded Scenario.nullThenHello 200.
Proof.
  split; [reflexivity|]. split; [reflexivity|]. discriminate.
Qed.

(** ** The context handlers *)

Section HandlerProofs.
Import ContextIpc.

Variable registry : RegistryMethods.
Variable onSwitched : ServiceContext -> M unit.

Lemma try_catch_returns {A} (body : M (Envelope A)) (s : Process) :
  try_catch body (fun err => ret (failure (message err))) s
  = match body s with
    | (Returned env, s') => (Returned env, s')
    | (Threw err, s') => (Returned (failure (message err)), s')
    end.
Proof. unfold try_catch. destruct (body s) as [[env|err] s']; reflexivity. Qed.

Lemma handleList_outcome (s : Process) :
  handleList registry s
  = match m_list registry s with
    | (Returned contexts, s') => (Returned (success contexts), s')
    | (Threw err, s') => (Returned (failure (message err)), s')
    end.
Proof.
  unfold handleList. rewrite try_catch_returns. unfold Js.bind, Js.ret.
  destruct (m_list registry s) as [[cs|err] s']; reflexivity.
Qed.

Lemma handleGetActive_outcome (s : Process) :
  handleGetActive registry s
  = match m_getActiveContextId registry s with
    | (Returned activeContextId, s') => (Returned (success activeContextId), s')
    | (Threw err, s') => (Returned (failure (message err)), s')
    end.
Proof.
  unfold handleGetActive. rewrite try_catch_returns. unfold Js.bind, Js.ret.
  destruct (m_getActiveContextId registry s) as [[a|err] s']; reflexivity.
Qed.

Lemma handleSwitch_outcome (s : Process) (contextId : string) :
  handleSwitch registry onSwitched contextId s
  = match m_switch registry contextId s with
    | (Returned r, s') =>
        match onSwitched (Registry.current r) s' with
        | (Returned _, s'') => (Returned (success {| contextId := contextId |}), s'')
        | (Threw err, s'') => (Returned (failure (message err)), s'')
        end
    | (Threw err, s') => (Returned (failure (message err)), s')
    end.
Proof.
  unfold handleSwitch. rewrite try_catch_returns. unfold Js.bind, Js.ret.
  destruct (m_switch registry contextId s) as [[r|err] s']; [|reflexivity].
  destruct (onSwitched (Registry.current r) s') as [[[]|err] s'']; reflexivity.
Qed.

(** C3. Each of the three handlers resolves to an envelope, whatever the
    registry and the callback do: to success with the data (for switch,
    the requested contextId) when nothing was thrown, and to failure with
    the message of what was thrown otherwise; nothing thrown by the
    registry or by the callback leaves a handler. *)
Theorem handlers_resolve_to_envelopes (s : Process) (contextId : string) :
  handleList registry s
  = match m_list registry s with
    | (Returned contexts, s') => (Returned (success contexts), s')
    | (Threw err, s') => (Returned (failure (message err)), s')
    end
  /\ handleGetActive registry s
     = match m_getActiveContextId registry s with
       | (Returned activeContextId, s') => (Returned (success activeContextId), s')
       | (Threw err, s') => (Returned (failure (message err)), s')
       end
  /\ handleSwitch registry onSwitched contextId s
     = match m_switch registry contextId s with
       | (Returned r, s') =>
           match onSwitched (Registry.current r) s' with
           | (Returned _, s'') => (Returned (success {| contextId := contextId |}), s'')
           | (Threw err, s'') => (Returned (failure (message err)), s'')
           end
       | (Threw err, s') => (Returned (failure (message err)), s')
       end
  /\ (exists env s', handleList registry s = (Returned env, s'))
  /\ (exists env s', handleGetActive registry s = (Returned env, s'))
  /\ (exists env s', handleSwitch registry onSwitched contextId s = (Returned env, s')).
Proof.
  split; [apply handleList_outcome|].
  split; [apply handleGetActive_outcome|].
  split; [apply handleSwitch_outcome|].
  split; [|split].
  - rewrite handleList_outcome. destruct (m_list registry s) as [[cs|err] s']; eauto.
  - rewrite handleGetActive_outcome.
    destruct (m_getActiveContextId registry s) as [[a|err] s']; eauto.
  - rewrite handleSwitch_outcome.
    destruct (m_switch registry contextId s) as [[r|err] s']; eauto.
    destruct (onSwitched (Registry.current r) s') as [[[]|err] s'']; eauto.
Qed.


End HandlerProofs.

(** ** Emitting to the forwarding closures *)

Lemma set_renderer_same (s : Process) : set_renderer (renderer s) s = s.
Proof. now destruct s. Qed.

Lemma invoke_outcome (l : Listener) (x : Payload) (s : Process) :
  Emitter.invoke l x s
  = (Returned tt,
     if Index.windowIsLive s then set_renderer (renderer s ++ [(forwardsTo l, x)]) s else s).
Proof.
  unfold Emitter.invoke, Js.modify, Index.windowIsLive.
  destruct (mainWindow s) as [w|]; [|reflexivity]. now destruct (isDestroyed w).
Qed.

(** An emission calls every listener in turn; each one writes to the
    renderer if there is a live window, and to nothing else. *)
Lemma emit_outcome (ls : list Listener) (x : Payload) (s : Process) :
  Emitter.emit ls x s
  = (Returned tt,
     if Index.windowIsLive s
     then set_renderer (renderer s ++ map (fun l => (forwardsTo l, x)) ls) s
     else s).
Proof.
  unfold Emitter.emit. revert s.
  induction ls as [|l ls IH]; intros s; cbn [map exec].
  - unfold Js.ret. rewrite app_nil_r, set_renderer_same. now destruct (Index.windowIsLive s).
  - unfold Js.bind. rewrite invoke_outcome.
    destruct (Index.windowIsLive s) eqn:Hlive; rewrite IH.
    + replace (Index.windowIsLive (set_renderer _ s)) with true by exact (eq_sym Hlive).
      cbn [set_renderer renderer]. rewrite <- app_assoc. reflexivity.
    + now rewrite Hlive.
Qed.

Lemma emitStateChange_outcome (status : ConnectionStatus) (s : Process) :
  Ssh.emitStateChange status s
  = (Returned tt,
     if Index.windowIsLive s
     then set_renderer
            (renderer s ++ map (fun l => (forwardsTo l, StatusValue status))
                               (stateChangeListeners (sshConnectionManager s))) s
     else s).
Proof. unfold Ssh.emitStateChange, Js.bind, Js.get. apply emit_outcome. Qed.

Lemma setStatus_frame (target : string) (status : ConnectionStatus) (s : Process) :
  exists s', Ssh.setStatus target status s = (Returned tt, s')
    /\ contextRegistry s' = contextRegistry s
    /\ Wiring.wiring s' = Wiring.wiring s
    /\ mainWindow s' = mainWindow s
    /\ network s' = network s
    /\ ipcHandlers s' = ipcHandlers s
    /\ stateChangeListeners (sshConnectionManager s')
       = stateChangeListeners (sshConnectionManager s).
Proof.
  unfold Ssh.setStatus, Js.bind, Js.modify. rewrite emitStateChange_outcome.
  eexists. split; [reflexivity|].
  destruct (Index.windowIsLive _); repeat split; reflexivity.
Qed.

(** ** The callback never throws *)

Lemma wire_anywhere (context : ServiceContext) (s : Process) :
  fst (Index.wireFileWatcherEvents context s) = Returned tt
  /\ Wiring.surroundings (snd (Index.wireFileWatcherEvents context s)) = Wiring.surroundings s.
Proof.
  unfold Index.wireFileWatcherEvents, Index.wireFileWatcherEvents_body. cbn [exec].
  unfold Index.detachFileChange, Index.detachTodoChange, Index.attachFileChange,
    Index.attachTodoChange, Index.callCleanup, Index.newForwarder, Watcher.on, Watcher.off,
    Watcher.update, Js.bind, Js.get, Js.modify, Js.ret.
  destruct (fileChangeCleanup s); cbn;
    destruct (todoChangeCleanup s); cbn; split; reflexivity.
Qed.

Lemma onContextSwitched_anywhere (context : ServiceContext) (s : Process) :
  fst (Index.onContextSwitched context s) = Returned tt
  /\ sshConnectionManager (snd (Index.onContextSwitched context s)) = sshConnectionManager s
  /\ mainWindow (snd (Index.onContextSwitched context s)) = mainWindow s.
Proof.
  destruct (wire_anywhere context s) as [Hfst Hsurr].
  unfold Index.onContextSwitched, Js.bind, Js.get.
  destruct (Index.wireFileWatcherEvents context s) as [[[]|e] s4]; [|discriminate Hfst].
  cbn [snd] in Hsurr. unfold Wiring.surroundings in Hsurr. injection Hsurr as Hm _ _ Hssh _ _.
  destruct (Index.windowIsLive s4); cbn; repeat split; assumption.
Qed.

(** ** A failed switch *)




Example failed_switch_unknown_id :
  Index.contextSwitch "nowhere" Scenario.windowed
  = (Returned (ContextIpc.failure "Context not found: nowhere"), Scenario.windowed).
Proof. vm_compute. reflexivity. Qed.

(** The scenario of the specification: once the host accepts the
    connection, the same switch succeeds and ssh-host1 is active. *)
Example switch_after_host_recovers :
  let s := Scenario.set_network ∅ Scenario.afterFailedSwitch in
  fst (Index.contextSwitch "ssh-host1" s)
  = Returned (ContextIpc.success {| ContextIpc.contextId := "ssh-host1" |})
  /\ activeId (contextRegistry (snd (Index.contextSwitch "ssh-host1" s))) = "ssh-host1".
Proof. vm_compute. split; reflexivity. Qed.

(** ** The rewiring pass *)

Section RewiringProofs.
Import Wiring.

Lemma watcherOf_update (id : string) (f : FileWatcher -> FileWatcher) (s : Process) (id' : string) :
  Watcher.watcherOf (snd (Watcher.update id f s)) id'
  = if decide (id = id') then f (Watcher.watcherOf s id) else Watcher.watcherOf s id'.
Proof.
  unfold Watcher.update, Js.modify, Watcher.watcherOf. cbn [snd set_watchers watchers].
  rewrite lookup_insert. destruct (decide (id = id')) as [->|]; reflexivity.
Qed.

Lemma off_single (l : Listener) : Emitter.off l [l] = [].
Proof. unfold Emitter.off. simpl. now rewrite decide_True. Qed.

Lemma off_none (l : Listener) : Emitter.off l [] = [].
Proof. reflexivity. Qed.

Lemma off_accountedFor (c : Cleanup) (id : string) :
  Emitter.off (cl_handler c) (accountedFor (Some c) id) = [].
Proof.
  unfold accountedFor. destruct (decide (cl_context c = id)); [apply off_single | reflexivity].
Qed.

(** With the listeners accounted for, whatever is attached belongs to a
    context that one of the two cleanup closures names. *)
Lemma attached_named (s : Process) (a : string) :
  Accounted s -> attached s a ->
  (exists c, fileChangeCleanup s = Some c /\ cl_context c = a)
  \/ (exists c, todoChangeCleanup s = Some c /\ cl_context c = a).
Proof.
  intros [Hf Ht _ _] [[] Hev]; cbn [Watcher.listeners] in Hev.
  - left. rewrite Hf in Hev. unfold accountedFor in Hev.
    destruct (fileChangeCleanup s) as [c|]; [|easy].
    destruct (decide (cl_context c = a)); [eauto | easy].
  - right. rewrite Ht in Hev. unfold accountedFor in Hev.
    destruct (todoChangeCleanup s) as [c|]; [|easy].
    destruct (decide (cl_context c = a)); [eauto | easy].
Qed.

Lemma named_attached_todo (s : Process) (c : Cleanup) :
  Accounted s -> todoChangeCleanup s = Some c -> attached s (cl_context c).
Proof.
  intros [_ Ht _ _] Hc. exists on_todo_change. cbn [Watcher.listeners].
  rewrite Ht, Hc. unfold accountedFor. now rewrite decide_True.
Qed.

Lemma Wired_singleSource (s : Process) : Wired s -> singleSource s.
Proof.
  intros [Hacc Hsame] a b Ha Hb. unfold sameContext in Hsame.
  destruct (attached_named s a Hacc Ha) as [(c & Hc & <-)|(c & Hc & <-)];
    destruct (attached_named s b Hacc Hb) as [(d & Hd & <-)|(d & Hd & <-)];
    rewrite ?Hc, ?Hd in *; try congruence;
    destruct (fileChangeCleanup s), (todoChangeCleanup s); congruence || easy.
Qed.

Lemma detachFileChange_accounted (s : Process) :
  Accounted s ->
  exists s1, Index.detachFileChange s = (Returned tt, s1)
    /\ Accounted s1
    /\ fileChangeCleanup s1 = None
    /\ todoChangeCleanup s1 = todoChangeCleanup s
    /\ closures s1 = closures s
    /\ surroundings s1 = surroundings s.
Proof.
  intros [Hf Ht Hfe Hte].
  unfold Index.detachFileChange, Js.bind, Js.get, Js.ret.
  destruct (fileChangeCleanup s) as [c|] eqn:Hc.
  - unfold Index.callCleanup, Watcher.off.
    pose proof (watcherOf_update (cl_context c)
      (fun w => Watcher.set_listeners (cl_event c)
                  (Emitter.off (cl_handler c) (Watcher.listeners (cl_event c) w)) w) s) as Hw.
    destruct (Watcher.update _ _ s) as [[[]|e] s'] eqn:Hupd; [|discriminate Hupd].
    cbn [snd] in Hw. eexists. split; [reflexivity|].
    assert (Hfr : todoChangeCleanup s' = todoChangeCleanup s
                  /\ closures s' = closures s /\ surroundings s' = surroundings s).
    { unfold Watcher.update, Js.modify in Hupd. injection Hupd as <-. repeat split. }
    destruct Hfr as (Hft & Hfc & Hfs).
    cbn in Hfe. rewrite Hfe in Hw.
    split; [|repeat split; assumption].
    constructor; cbn [fileChangeCleanup todoChangeCleanup set_fileChangeCleanup];
      unfold Watcher.watcherOf in *; cbn [watchers set_fileChangeCleanup]; try easy.
    + intros id. rewrite Hw. destruct (decide (cl_context c = id)) as [<-|Hne].
      * cbn. rewrite Hf. apply off_accountedFor.
      * rewrite Hf. unfold accountedFor. now rewrite decide_False.
    + intros id. rewrite Hft, Hw. destruct (decide (cl_context c = id)) as [<-|Hne].
      * cbn. apply Ht.
      * apply Ht.
    + now rewrite Hft.
  - exists s. rewrite Hc in *. repeat split; try assumption. all: now rewrite Hc.
Qed.

Lemma detachTodoChange_accounted (s : Process) :
  Accounted s ->
  exists s1, Index.detachTodoChange s = (Returned tt, s1)
    /\ Accounted s1
    /\ todoChangeCleanup s1 = None
    /\ fileChangeCleanup s1 = fileChangeCleanup s
    /\ closures s1 = closures s
    /\ surroundings s1 = surroundings s.
Proof.
  intros [Hf Ht Hfe Hte].
  unfold Index.detachTodoChange, Js.bind, Js.get, Js.ret.
  destruct (todoChangeCleanup s) as [c|] eqn:Hc.
  - unfold Index.callCleanup, Watcher.off.
    pose proof (watcherOf_update (cl_context c)
      (fun w => Watcher.set_listeners (cl_event c)
                  (Emitter.off (cl_handler c) (Watcher.listeners (cl_event c) w)) w) s) as Hw.
    destruct (Watcher.update _ _ s) as [[[]|e] s'] eqn:Hupd; [|discriminate Hupd].
    cbn [snd] in Hw. eexists. split; [reflexivity|].
    assert (Hfr : fileChangeCleanup s' = fileChangeCleanup s
                  /\ closures s' = closures s /\ surroundings s' = surroundings s).
    { unfold Watcher.update, Js.modify in Hupd. injection Hupd as <-. repeat split. }
    destruct Hfr as (Hff & Hfc & Hfs).
    cbn in Hte. rewrite Hte in Hw.
    split; [|repeat split; assumption].
    constructor; cbn [fileChangeCleanup todoChangeCleanup set_todoChangeCleanup];
      unfold Watcher.watcherOf in *; cbn [watchers set_todoChangeCleanup]; try easy.
    + intros id. rewrite Hff, Hw. destruct (decide (cl_context c = id)) as [<-|Hne].
      * cbn. apply Hf.
      * apply Hf.
    + intros id. rewrite Hw. destruct (decide (cl_context c = id)) as [<-|Hne].
      * cbn. rewrite Ht. apply off_accountedFor.
      * rewrite Ht. unfold accountedFor. now rewrite decide_False.
    + now rewrite Hff.
  - exists s. rewrite Hc in *. repeat split; try assumption. all: now rewrite Hc.
Qed.

Lemma attachFileChange_accounted (context : ServiceContext) (s : Process) :
  Accounted s -> fileChangeCleanup s = None ->
  exists s1, Index.attachFileChange context s = (Returned tt, s1)
    /\ Accounted s1
    /\ fileChangeCleanup s1
       = Some {| cl_context := ctx_id context; cl_event := on_file_change;
                 cl_handler := {| closure := closures s; forwardsTo := file_change |} |}
    /\ todoChangeCleanup s1 = todoChangeCleanup s
    /\ closures s1 = S (closures s)
    /\ surroundings s1 = surroundings s.
Proof.
  intros [Hf Ht Hfe Hte] Hnone.
  unfold Index.attachFileChange, Index.newForwarder, Watcher.on.
  unfold Js.bind at 1 2 3. unfold Js.get, Js.ret. unfold Js.modify at 1.
  set (h := {| closure := closures s; forwardsTo := file_change |}).
  set (s0 := set_closures (S (closures s)) s).
  assert (Hw0 : forall id, Watcher.watcherOf s0 id = Watcher.watcherOf s id) by reflexivity.
  unfold Js.bind.
  pose proof (watcherOf_update (ctx_id context)
    (fun w => Watcher.set_listeners on_file_change
                (Emitter.on h (Watcher.listeners on_file_change w)) w) s0) as Hw.
  destruct (Watcher.update _ _ s0) as [[[]|e] s'] eqn:Hupd; [|discriminate Hupd].
  cbn [snd] in Hw. eexists. split; [reflexivity|].
  assert (Hfr : todoChangeCleanup s' = todoChangeCleanup s
                /\ closures s' = S (closures s) /\ surroundings s' = surroundings s).
  { unfold Watcher.update, Js.modify in Hupd. injection Hupd as <-. repeat split. }
  destruct Hfr as (Hft & Hfc & Hfs).
  split; [|repeat split; assumption].
  constructor; cbn [fileChangeCleanup todoChangeCleanup set_fileChangeCleanup];
    unfold Watcher.watcherOf in *; cbn [watchers set_fileChangeCleanup]; try easy.
  - intros id. rewrite Hw, Hw0. unfold accountedFor. cbn [cl_context cl_handler].
    destruct (decide (ctx_id context = id)) as [<-|Hne].
    + cbn. rewrite Hf, Hnone. reflexivity.
    + rewrite Hf, Hnone. reflexivity.
  - intros id. rewrite Hft, Hw, Hw0. destruct (decide (ctx_id context = id)) as [<-|Hne].
    + cbn. apply Ht.
    + apply Ht.
  - now rewrite Hft.
Qed.

Lemma attachTodoChange_accounted (context : ServiceContext) (s : Process) :
  Accounted s -> todoChangeCleanup s = None ->
  exists s1, Index.attachTodoChange context s = (Returned tt, s1)
    /\ Accounted s1
    /\ todoChangeCleanup s1
       = Some {| cl_context := ctx_id context; cl_event := on_todo_change;
                 cl_handler := {| closure := closures s; forwardsTo := todo_change |} |}
    /\ fileChangeCleanup s1 = fileChangeCleanup s
    /\ closures s1 = S (closures s)
    /\ surroundings s1 = surroundings s.
Proof.
  intros [Hf Ht Hfe Hte] Hnone.
  unfold Index.attachTodoChange, Index.newForwarder, Watcher.on.
  unfold Js.bind at 1 2 3. unfold Js.get, Js.ret. unfold Js.modify at 1.
  set (h := {| closure := closures s; forwardsTo := todo_change |}).
  set (s0 := set_closures (S (closures s)) s).
  assert (Hw0 : forall id, Watcher.watcherOf s0 id = Watcher.watcherOf s id) by reflexivity.
  unfold Js.bind.
  pose proof (watcherOf_update (ctx_id context)
    (fun w => Watcher.set_listeners on_todo_change
                (Emitter.on h (Watcher.listeners on_todo_change w)) w) s0) as Hw.
  destruct (Watcher.update _ _ s0) as [[[]|e] s'] eqn:Hupd; [|discriminate Hupd].
  cbn [snd] in Hw. eexists. split; [reflexivity|].
  assert (Hfr : fileChangeCleanup s' = fileChangeCleanup s
                /\ closures s' = S (closures s) /\ surroundings s' = surroundings s).
  { unfold Watcher.update, Js.modify in Hupd. injection Hupd as <-. repeat split. }
  destruct Hfr as (Hff & Hfc & Hfs).
  split; [|repeat split; assumption].
  constructor; cbn [fileChangeCleanup todoChangeCleanup set_todoChangeCleanup];
    unfold Watcher.watcherOf in *; cbn [watchers set_todoChangeCleanup]; try easy.
  - intros id. rewrite Hff, Hw, Hw0. destruct (decide (ctx_id context = id)) as [<-|Hne].
    + cbn. apply Hf.
    + apply Hf.
  - intros id. rewrite Hw, Hw0. unfold accountedFor. cbn [cl_context cl_handler].
    destruct (decide (ctx_id context = id)) as [<-|Hne].
    + cbn. rewrite Ht, Hnone. reflexivity.
    + rewrite Ht, Hnone. reflexivity.
  - now rewrite Hff.
Qed.

Lemma onlyFrom_named (s : Process) (id : string) :
  Accounted s ->
  (forall c, fileChangeCleanup s = Some c -> cl_context c = id) ->
  (forall c, todoChangeCleanup s = Some c -> cl_context c = id) ->
  onlyFrom id s.
Proof.
  intros Hacc Hfile Htodo a Ha.
  destruct (attached_named s a Hacc Ha) as [(c & Hc & <-)|(c & Hc & <-)]; auto.
Qed.

Lemma onlyFrom_singleSource (s : Process) (id : string) : onlyFrom id s -> singleSource s.
Proof. intros H a b Ha Hb. now rewrite (H a Ha), (H b Hb). Qed.

Lemma silent_unnamed (s : Process) :
  Accounted s -> fileChangeCleanup s = None -> todoChangeCleanup s = None -> silent s.
Proof.
  intros Hacc Hf Ht a Ha.
  destruct (attached_named s a Hacc Ha) as [(c & Hc & _)|(c & Hc & _)]; congruence.
Qed.

Lemma silent_singleSource (s : Process) : silent s -> singleSource s.
Proof. intros H a b Ha _. now destruct (H a). Qed.

(** The rewiring pass, statement by statement. *)
Lemma rewiring_pass (context : ServiceContext) (s : Process) :
  Wired s -> detachBeforeAttach context s.
Proof.
  intros [Hacc Hsame].
  destruct (detachFileChange_accounted s Hacc)
    as (s1 & Hrun1 & Hacc1 & Hf1 & Ht1 & Hc1 & Hs1).
  destruct (detachTodoChange_accounted s1 Hacc1)
    as (s2 & Hrun2 & Hacc2 & Ht2 & Hf2 & Hc2 & Hs2).
  rewrite Hf1 in Hf2.
  destruct (attachFileChange_accounted context s2 Hacc2 Hf2)
    as (s3 & Hrun3 & Hacc3 & Hf3 & Ht3 & Hc3 & Hs3).
  rewrite Ht2 in Ht3.
  destruct (attachTodoChange_accounted context s3 Hacc3 Ht3)
    as (s4 & Hrun4 & Hacc4 & Ht4 & Hf4 & Hc4 & Hs4).
  rewrite Hf3 in Hf4. rewrite Hc2, Hc1 in Hf3, Hc3, Hf4. rewrite Hc3 in Ht4, Hc4.
  assert (Hold : forall a, attached s1 a -> attached s a).
  { intros a Ha.
    destruct (attached_named s1 a Hacc1 Ha) as [(c & Hc & _)|(c & Hc & <-)]; [congruence|].
    rewrite Ht1 in Hc. now apply named_attached_todo. }
  assert (Hsilent : silent s2) by now apply silent_unnamed.
  assert (Hnew3 : onlyFrom (ctx_id context) s3).
  { apply onlyFrom_named; [exact Hacc3| |]; intros c Hc; [|congruence].
    rewrite Hf3 in Hc. now injection Hc as <-. }
  assert (Hnew4 : onlyFrom (ctx_id context) s4).
  { apply onlyFrom_named; [exact Hacc4| |]; intros c Hc.
    - rewrite Hf4 in Hc. now injection Hc as <-.
    - rewrite Ht4 in Hc. now injection Hc as <-. }
  assert (Hsingle : singleSource s) by now apply Wired_singleSource.
  exists s1, s2, s3, s4.
  split.
  { unfold Index.wireFileWatcherEvents_body. cbn [points].
    now rewrite Hrun1, Hrun2, Hrun3, Hrun4. }
  split.
  { unfold Index.wireFileWatcherEvents, Index.wireFileWatcherEvents_body. cbn [exec].
    unfold Js.bind. now rewrite Hrun1, Hrun2, Hrun3, Hrun4. }
  split; [exact Hold|]. split; [exact Hsilent|].
  split; [exact Hnew3|]. split; [exact Hnew4|].
  split.
  { repeat constructor.
    - exact Hsingle.
    - intros a b Ha Hb. apply Hsingle; now apply Hold.
    - now apply silent_singleSource.
    - now apply onlyFrom_singleSource with (ctx_id context).
    - now apply onlyFrom_singleSource with (ctx_id context). }
  split.
  { destruct Hacc4 as [Hfile Htodo _ _]. unfold wiredTo.
    rewrite Hfile, Htodo, Hf4, Ht4. unfold accountedFor. cbn [cl_context cl_handler].
    rewrite !decide_True by reflexivity. repeat split. exact Hc4. }
  split.
  { split; [exact Hacc4|]. rewrite Hf4, Ht4. reflexivity. }
  congruence.
Qed.

End RewiringProofs.

(** ** Where rewiring passes start *)

Section PassProofs.
Import Wiring.

Lemma Wired_wiring (s s' : Process) :
  wiring s' = wiring s -> Wired s -> Wired s'.
Proof.
  unfold wiring. intros [= Hw Hf Ht _] [[Hfile Htodo Hfe Hte] Hsame].
  split; [constructor|]; unfold Watcher.watcherOf in *; rewrite ?Hw, ?Hf, ?Ht; assumption.
Qed.

Lemma wiredTo_wiring (s s' : Process) (id : string) (n : nat) :
  wiring s' = wiring s -> wiredTo id n s -> wiredTo id n s'.
Proof.
  unfold wiring, wiredTo, Watcher.watcherOf. intros [= Hw Hf Ht Hc].
  now rewrite Hw, Hf, Ht, Hc.
Qed.

Lemma onlyFrom_wiring (s s' : Process) (id : string) :
  wiring s' = wiring s -> onlyFrom id s -> onlyFrom id s'.
Proof.
  unfold wiring, onlyFrom, attached, Watcher.watcherOf. intros [= Hw _ _ _].
  now rewrite Hw.
Qed.

(** The registry leaves the wiring, the window and the listeners of the
    connection manager alone, whether its switch succeeds or not. *)
Lemma switch_frame (targetId : string) (s : Process) :
  wiring (snd (Registry.switch targetId s)) = wiring s
  /\ mainWindow (snd (Registry.switch targetId s)) = mainWindow s
  /\ stateChangeListeners (sshConnectionManager (snd (Registry.switch targetId s)))
     = stateChangeListeners (sshConnectionManager s).
Proof.
  unfold Registry.switch, Js.bind, Js.get.
  destruct (contexts (contextRegistry s) !! targetId) as [target|]; [|now repeat split].
  destruct (decide (targetId = activeId (contextRegistry s))); [now repeat split|].
  destruct (ctx_type target); [now repeat split|].
  destruct (decide (Ssh.statusOf s targetId = connected)); [now repeat split|].
  unfold Ssh.connect, Js.bind, Js.get.
  destruct (network s !! targetId) as [reason|].
  - destruct (setStatus_frame targetId (error reason) s) as (s' & -> & _ & Hw & Hm & _ & _ & Hl).
    now repeat split.
  - destruct (setStatus_frame targetId connected s) as (s' & -> & _ & Hw & Hm & _ & _ & Hl).
    now repeat split.
Qed.

(** A state with no cleanup closure and no listener on any watcher. *)
Lemma Wired_unwired (s : Process) :
  (forall id w, watchers s !! id = Some w ->
     fileChangeListeners w = [] /\ todoChangeListeners w = []) ->
  fileChangeCleanup s = None -> todoChangeCleanup s = None ->
  Wired s.
Proof.
  intros Hws Hf Ht. split; [constructor|]; rewrite ?Hf, ?Ht; try exact I.
  - intros id. unfold Watcher.watcherOf.
    destruct (watchers s !! id) as [w|] eqn:Hw; [apply (Hws _ _ Hw) | reflexivity].
  - intros id. unfold Watcher.watcherOf.
    destruct (watchers s !! id) as [w|] eqn:Hw; [apply (Hws _ _ Hw) | reflexivity].
Qed.

Lemma Wired_beforeWiring : Wired Scenario.beforeWiring.
Proof.
  apply Wired_unwired; [|reflexivity|reflexivity].
  assert (Hw : watchers Scenario.beforeWiring
               = {[ "local" := {| started := 1; notificationManagerSet := true;
                                  fileChangeListeners := []; todoChangeListeners := [] |} ]})
    by (vm_compute; reflexivity).
  intros id w. rewrite Hw, lookup_singleton. case_decide; [|discriminate].
  intros [= <-]. split; reflexivity.
Qed.

Lemma switch_returned_Wired (targetId : string) (s s' : Process) (r : Registry.SwitchResult) :
  Wired s -> Registry.switch targetId s = (Returned r, s') -> Wired s'.
Proof.
  intros Hwired Hrun. destruct (switch_frame targetId s) as (Hw & _).
  rewrite Hrun in Hw. now apply Wired_wiring with s.
Qed.

(** C2. Every rewiring pass detaches before it attaches: a pass that
    starts in a state the module keeps between passes has both listeners
    of the outgoing context off before the first listener of the incoming
    one is on, and no state of the pass has listeners of two contexts
    attached. The first pass, at start-up, starts in such a state; so does
    the pass that follows a successful switch of the registry, and it
    leaves such a state again. *)
Theorem detach_completes_before_attach
    (context : ServiceContext) (targetId : string) (s s' : Process)
    (r : Registry.SwitchResult) :
  (Wired s -> detachBeforeAttach context s)
  /\ (exec Index.initializeServices_upToWiring Index.loaded
      = (Returned tt, Scenario.beforeWiring)
      /\ Index.initializeServices Index.loaded
         = exec (Index.wireFileWatcherEvents_body Index.localContext
                 ++ Index.initializeServices_afterWiring) Scenario.beforeWiring
      /\ detachBeforeAttach Index.localContext Scenario.beforeWiring)
  /\ (Wired s -> Registry.switch targetId s = (Returned r, s') ->
      detachBeforeAttach (Registry.current r) s').
Proof.
  split; [apply rewiring_pass|].
  split.
  - split; [vm_compute; reflexivity|]. split; [vm_compute; reflexivity|].
    apply rewiring_pass, Wired_beforeWiring.
  - intros Hwired Hrun. eapply rewiring_pass, switch_returned_Wired; eassumption.
Qed.

End PassProofs.

Lemma Wired_single (s : Process) (id : string) (w : FileWatcher) (hf ht : Listener) :
  watchers s = {[ id := w ]} ->
  fileChangeListeners w = [hf] -> todoChangeListeners w = [ht] ->
  fileChangeCleanup s
  = Some {| cl_context := id; cl_event := on_file_change; cl_handler := hf |} ->
  todoChangeCleanup s
  = Some {| cl_context := id; cl_event := on_todo_change; cl_handler := ht |} ->
  Wiring.Wired s.
Proof.
  intros Hw Hf Ht Hfc Htc.
  split; [constructor|]; rewrite ?Hfc, ?Htc; try reflexivity.
  - intros id'. unfold Watcher.watcherOf, Wiring.accountedFor. cbn [cl_context cl_handler].
    rewrite Hw, lookup_singleton. destruct (decide (id = id')); [exact Hf | reflexivity].
  - intros id'. unfold Watcher.watcherOf, Wiring.accountedFor. cbn [cl_context cl_handler].
    rewrite Hw, lookup_singleton. destruct (decide (id = id')); [exact Ht | reflexivity].
Qed.

Lemma Wired_windowed : Wiring.Wired Scenario.windowed.
Proof.
  apply Wired_single with
    (id := "local")
    (w := {| started := 1; notificationManagerSet := true;
             fileChangeListeners := [ {| closure := 0; forwardsTo := file_change |} ];
             todoChangeListeners := [ {| closure := 1; forwardsTo := todo_change |} ] |})
    (hf := {| closure := 0; forwardsTo := file_change |})
    (ht := {| closure := 1; forwardsTo := todo_change |});
    vm_compute; reflexivity.
Qed.

(** The theorem at the state after start-up and window creation: a pass
    towards the remote context, and the pass that follows the switch to
    the local context. *)
Lemma detach_before_attach_witness :
  Wiring.detachBeforeAttach Scenario.remoteContext Scenario.windowed
  /\ Wiring.detachBeforeAttach Index.localContext Scenario.windowed.
Proof.
  destruct (detach_completes_before_attach Scenario.remoteContext "local"
              Scenario.windowed Scenario.windowed
              {| Registry.previous := Some Index.localContext;
                 Registry.current := Index.localContext |}) as (Hpass & _ & Hswitch).
  split; [exact (Hpass Wired_windowed)|].
  apply (Hswitch Wired_windowed). vm_compute. reflexivity.
Defined.

(** ** Switching to the active context *)

Section SameContextProofs.
Import Wiring.

Lemma onContextSwitched_outcome (context : ServiceContext) (s s4 : Process) :
  Index.wireFileWatcherEvents context s = (Returned tt, s4) ->
  surroundings s4 = surroundings s ->
  Index.onContextSwitched context s
  = (Returned tt,
     if Index.windowIsLive s
     then set_renderer
            (renderer s ++ [ (SSH_STATUS, StatusValue (Ssh.getStatus s));
                             (context_changed,
                              ContextChanged (ctx_id context) (ctx_type context)) ]) s4
     else s4).
Proof.
  intros Hwire. unfold surroundings. intros [= Hm Hr _ Hssh _ _].
  unfold Index.onContextSwitched, Js.bind, Js.get. rewrite Hwire.
  unfold Index.windowIsLive, Ssh.getStatus. rewrite Hm, Hssh.
  destruct (mainWindow s) as [w|]; [|reflexivity].
  destruct (isDestroyed w); [reflexivity|]. cbn [negb].
  unfold Index.send, Js.modify. cbn [renderer set_renderer]. rewrite Hr, <- app_assoc.
  reflexivity.
Qed.

Lemma switch_to_active (targetId : string) (target : ServiceContext) (s : Process) :
  contexts (contextRegistry s) !! targetId = Some target ->
  activeId (contextRegistry s) = targetId ->
  Registry.switch targetId s
  = (Returned {| Registry.previous := Some target; Registry.current := target |}, s).
Proof.
  intros Hlook Hactive. unfold Registry.switch, Js.bind, Js.get. rewrite Hlook.
  now rewrite decide_True by congruence.
Qed.

(** C4, as amended. A switch to the identifier that is already active
    succeeds and leaves the registry as it was, but it does run a rewiring
    pass: the two listeners are detached and two new forwarders are
    attached to the watcher of the same context, so that afterwards the
    renderer is fed by that context only, as before; with a live window
    the renderer is also sent the connection status and the
    context-changed notice. *)
Theorem switch_to_active_rewires (targetId : string) (target : ServiceContext) (s : Process) :
  Wired s ->
  contexts (contextRegistry s) !! targetId = Some target ->
  ctx_id target = targetId ->
  activeId (contextRegistry s) = targetId ->
  exists s',
    Index.contextSwitch targetId s
    = (Returned (ContextIpc.success {| ContextIpc.contextId := targetId |}), s')
    /\ contextRegistry s' = contextRegistry s
    /\ detachBeforeAttach target s
    /\ wiring s' = wiring (snd (Index.wireFileWatcherEvents target s))
    /\ wiredTo targetId (closures s) s'
    /\ onlyFrom targetId s'
    /\ Wired s'
    /\ renderer s'
       = renderer s
         ++ (if Index.windowIsLive s
             then [ (SSH_STATUS, StatusValue (Ssh.getStatus s));
                    (context_changed, ContextChanged targetId (ctx_type target)) ]
             else []).
Proof.
  intros Hwired Hlook Hid Hactive.
  pose proof (rewiring_pass target s Hwired) as Hpass.
  destruct (rewiring_pass target s Hwired)
    as (s1 & s2 & s3 & s4 & Hpoints & Hwire & Hold & Hsilent & H3 & H4
                     & Hsingle & Hto & Hwired4 & Hsurr).
  pose proof (onContextSwitched_outcome target s s4 Hwire Hsurr) as Hcb.
  rewrite Hid in Hto, H4, Hcb.
  assert (Hrun : Index.contextSwitch targetId s
                 = (Returned (ContextIpc.success {| ContextIpc.contextId := targetId |}),
                    if Index.windowIsLive s
                    then set_renderer
                           (renderer s ++ [ (SSH_STATUS, StatusValue (Ssh.getStatus s));
                                            (context_changed,
                                             ContextChanged targetId (ctx_type target)) ]) s4
                    else s4)).
  { unfold Index.contextSwitch. rewrite handleSwitch_outcome.
    cbn [ContextIpc.m_switch Index.registryMethods].
    rewrite (switch_to_active targetId target s Hlook Hactive). cbn [Registry.current].
    now rewrite Hcb. }
  eexists. split; [exact Hrun|].
  assert (Hreg : contextRegistry s4 = contextRegistry s).
  { unfold surroundings in Hsurr. now injection Hsurr. }
  assert (Hrend : renderer s4 = renderer s).
  { unfold surroundings in Hsurr. now injection Hsurr. }
  rewrite Hwire. cbn [snd].
  destruct (Index.windowIsLive s).
  - split; [exact Hreg|]. split; [exact Hpass|].
    split; [reflexivity|].
    split; [now apply wiredTo_wiring with s4|].
    split; [now apply onlyFrom_wiring with s4|].
    split; [now apply Wired_wiring with s4 | reflexivity].
  - split; [exact Hreg|]. split; [exact Hpass|].
    split; [reflexivity|].
    split; [exact Hto|]. split; [exact H4|]. split; [exact Hwired4|].
    now rewrite app_nil_r.
Qed.

End SameContextProofs.

(** The theorem at the state after start-up and window creation, for the
    local context. *)
Lemma switch_to_active_witness :
  exists s',
    Index.contextSwitch "local" Scenario.windowed
    = (Returned (ContextIpc.success {| ContextIpc.contextId := "local" |}), s')
    /\ contextRegistry s' = contextRegistry Scenario.windowed
    /\ Wiring.wiredTo "local" 3 s'
    /\ renderer s' = [ (SSH_STATUS, StatusValue disconnected);
                       (context_changed, ContextChanged "local" local) ].
Proof.
  destruct (switch_to_active_rewires "local" Index.localContext Scenario.windowed
              Wired_windowed eq_refl eq_refl eq_refl)
    as (s' & Hrun & Hreg & _ & _ & Hto & _ & _ & Hrend).
  exists s'. split; [exact Hrun|]. split; [exact Hreg|]. split; [exact Hto | exact Hrend].
Defined.

(** C4, as the claim words it, fails: after start-up the local context
    is active and its watcher carries the forwarders number 0 and 1; the
    switch to local succeeds, and afterwards the watcher carries the
    forwarders number 3 and 4 instead, two more closures exist, and the
    renderer has been sent two messages. *)
Lemma switch_to_active_is_not_a_noop :
  let s := Scenario.windowed in
  let s' := snd (Index.contextSwitch "local" s) in
  activeId (contextRegistry s) = "local"
  /\ fst (Index.contextSwitch "local" s)
     = Returned (ContextIpc.success {| ContextIpc.contextId := "local" |})
  /\ contextRegistry s' = contextRegistry s
  /\ fileChangeListeners (Watcher.watcherOf s "local")
     = [ {| closure := 0; forwardsTo := file_change |} ]
  /\ fileChangeListeners (Watcher.watcherOf s' "local")
     = [ {| closure := 3; forwardsTo := file_change |} ]
  /\ Wiring.wiring s' <> Wiring.wiring s
  /\ renderer s = []
  /\ renderer s' = [ (SSH_STATUS, StatusValue disconnected);
                     (context_changed, ContextChanged "local" local) ].
Proof.
  cbv zeta.
  split; [vm_compute; reflexivity|]. split; [vm_compute; reflexivity|].
  split; [vm_compute; reflexivity|]. split; [vm_compute; reflexivity|].
  split; [vm_compute; reflexivity|].
  split; [intros H; apply (f_equal snd) in H; vm_compute in H; discriminate H|].
  split; vm_compute; reflexivity.
Qed.

(** ** Start-up *)


(** ** Connection status *)

Lemma contextSwitch_keeps_forwarders (targetId : string) (s : Process) :
  stateChangeListeners (sshConnectionManager (snd (Index.contextSwitch targetId s)))
  = stateChangeListeners (sshConnectionManager s).
Proof.
  unfold Index.contextSwitch. rewrite handleSwitch_outcome.
  cbn [ContextIpc.m_switch Index.registryMethods].
  destruct (switch_frame targetId s) as (_ & _ & Hl).
  destruct (Registry.switch targetId s) as [[r|err] s1]; cbn [snd] in *; [|exact Hl].
  destruct (onContextSwitched_anywhere (Registry.current r) s1) as (Hfst & Hssh & _).
  destruct (Index.onContextSwitched (Registry.current r) s1) as [[[]|e] s2];
    [|discriminate Hfst].
  cbn [snd] in *. now rewrite Hssh.
Qed.

(** C7, as amended. With the listener that initializeServices puts on
    the connection manager, every state-change event is passed on to the
    renderer as it is, on the SSH_STATUS channel, whichever context is
    active, as long as there is a main window that is not destroyed; with
    no such window the event is dropped. A context switch, failed or not,
    leaves that listener in place. *)
Theorem state_change_forwarded_to_live_window
    (s : Process) (status : ConnectionStatus) (h : Listener) (targetId : string) :
  stateChangeListeners (sshConnectionManager s) = [h] ->
  forwardsTo h = SSH_STATUS ->
  Ssh.emitStateChange status s
  = (Returned tt,
     if Index.windowIsLive s
     then set_renderer (renderer s ++ [(SSH_STATUS, StatusValue status)]) s
     else s)
  /\ stateChangeListeners (sshConnectionManager (snd (Index.contextSwitch targetId s))) = [h].
Proof.
  intros Hl Hh. split.
  - rewrite emitStateChange_outcome, Hl. cbn [map]. now rewrite Hh.
  - now rewrite contextSwitch_keeps_forwarders.
Qed.

(** The theorem at the state after start-up and window creation. *)
Lemma state_change_forwarded_witness :
  Ssh.emitStateChange (error "ECONNRESET") Scenario.windowed
  = (Returned tt,
     set_renderer [(SSH_STATUS, StatusValue (error "ECONNRESET"))] Scenario.windowed)
  /\ stateChangeListeners
       (sshConnectionManager (snd (Index.contextSwitch "nowhere" Scenario.windowed)))
     = [ {| closure := 2; forwardsTo := SSH_STATUS |} ].
Proof.
  exact (state_change_forwarded_to_live_window Scenario.windowed (error "ECONNRESET")
           {| closure := 2; forwardsTo := SSH_STATUS |} "nowhere" eq_refl eq_refl).
Defined.

(** C7, as the claim words it, fails: the window has been closed, the
    listener of initializeServices is in place, the connection manager
    reports a change, and nothing reaches the renderer. *)
Lemma state_change_dropped_without_window :
  stateChangeListeners (sshConnectionManager Scenario.windowClosed)
  = [ {| closure := 2; forwardsTo := SSH_STATUS |} ]
  /\ mainWindow Scenario.windowClosed = None
  /\ Ssh.emitStateChange connected Scenario.windowClosed = (Returned tt, Scenario.windowClosed)
  /\ renderer (snd (Ssh.emitStateChange connected Scenario.windowClosed))
     <> renderer Scenario.windowClosed ++ [(SSH_STATUS, StatusValue connected)].
Proof.
  repeat split; try (vm_compute; reflexivity).
  vm_compute. discriminate.
Qed.

(** * Further properties of the code *)

(** ** extractCommandName *)

Section CommandNameProofs.
Import MetadataExtraction.

Lemma spanNotLt_run (s : string) :
  Labels.occurs "<" (fst (spanNotLt s)) = false.
Proof.
  induction s as [|c s IH]; [reflexivity|]. cbn [spanNotLt].
  destruct (Ascii.eqb c "<") eqn:Hc; [reflexivity|].
  destruct (spanNotLt s) as [run rest]. cbn [fst Labels.occurs] in *.
  rewrite Ascii.eqb_sym, Hc. exact IH.
Qed.

Lemma append_cons (c : ascii) (s t : string) :
  String.append (String c s) t = String c (String.append s t).
Proof. reflexivity. Qed.

Lemma append_empty (t : string) : String.append "" t = t.
Proof. reflexivity. Qed.

Lemma spanNotLt_stops (name rest : string) :
  Labels.occurs "<" name = false ->
  spanNotLt (name ++ String "<" rest) = (name, String "<" rest).
Proof.
  induction name as [|c name IH]; cbn [Labels.occurs].
  - intros _. reflexivity.
  - intros [Hc Hname]%orb_false_elim. rewrite append_cons. cbn [spanNotLt].
    rewrite Ascii.eqb_sym, Hc. now rewrite (IH Hname).
Qed.

Lemma dropPrefix_append (p s : string) : dropPrefix p (p ++ s) = Some s.
Proof.
  induction p as [|c p IH].
  - rewrite append_empty. now destruct s.
  - rewrite append_cons. cbn [dropPrefix]. now rewrite Ascii.eqb_refl.
Qed.

Lemma startsWith_append (p s : string) : startsWith (p ++ s) p = true.
Proof.
  unfold startsWith. induction p as [|c p IH].
  - rewrite append_empty. now destruct s.
  - rewrite append_cons. cbn [String.prefix].
    destruct (ascii_dec c c) as [_|Hne]; [exact IH | now destruct Hne].
Qed.

Lemma commandNameAt_name (s name : string) :
  commandNameAt s = Some name -> name <> "" /\ Labels.occurs "<" name = false.
Proof.
  unfold commandNameAt. destruct (dropPrefix _ s) as [after|]; [|discriminate].
  pose proof (spanNotLt_run after) as Hrun.
  destruct (spanNotLt after) as [run rest]. cbn [fst] in Hrun.
  destruct (isEmpty run) eqn:Hempty; [discriminate|].
  destruct (startsWith rest _); [|discriminate].
  intros [= <-]. split; [|exact Hrun].
  intros ->. discriminate Hempty.
Qed.

Lemma commandMatch_name (s name : string) :
  commandMatch s = Some name -> name <> "" /\ Labels.occurs "<" name = false.
Proof.
  induction s as [|c s IH]; cbn [commandMatch].
  - destruct (commandNameAt "") as [n|] eqn:Hat; [|discriminate].
    intros [= <-]. now apply commandNameAt_name with "".
  - destruct (commandNameAt (String c s)) as [n|] eqn:Hat; [|exact IH].
    intros [= <-]. now apply commandNameAt_name with (String c s).
Qed.

Lemma extractCommandName_shape (content : string) :
  startsWith (extractCommandName content) "/" = true
  /\ 2 <= String.length (extractCommandName content)
  /\ Labels.occurs "<" (extractCommandName content) = false.
Proof.
  unfold extractCommandName.
  destruct (commandMatch content) as [n|] eqn:Hmatch; [|repeat split; cbn; lia].
  destruct (commandMatch_name _ _ Hmatch) as [Hne Hlt].
  split; [apply (startsWith_append "/" n)|].
  rewrite append_cons, append_empty.
  split; [destruct n; [now destruct Hne | cbn; lia] | exact Hlt].
Qed.

(** X1. The label that extractCommandName gives always starts with a
    slash, has something after it, and holds no [<]: no markup leaks into
    a session title. Content that opens with a command tag around a
    non-empty name without [<] gives that name behind a slash, whatever
    follows the tag. *)
Theorem extractCommandName_label (content name rest : string) :
  (startsWith (extractCommandName content) "/" = true
   /\ 2 <= String.length (extractCommandName content)
   /\ Labels.occurs "<" (extractCommandName content) = false)
  /\ (name <> "" -> Labels.occurs "<" name = false ->
      extractCommandName ("<command-name>/" ++ name ++ "</command-name>" ++ rest)%string
      = ("/" ++ name)%string).
Proof.
  split; [apply extractCommandName_shape|].
  intros Hne Hlt. unfold extractCommandName.
  assert (Hat : commandNameAt
                  ("<command-name>/" ++ name ++ "</command-name>" ++ rest)%string
                = Some name).
  { unfold commandNameAt. rewrite dropPrefix_append.
    assert (Hspan : spanNotLt (name ++ "</command-name>" ++ rest)%string
                    = (name, ("</command-name>" ++ rest)%string))
      by apply (spanNotLt_stops name ("/command-name>" ++ rest)%string Hlt).
    rewrite Hspan, startsWith_append.
    destruct name; [now destruct Hne | reflexivity]. }
  change ("<command-name>/" ++ name ++ "</command-name>" ++ rest)%string
    with (String "<" ("command-name>/" ++ name ++ "</command-name>" ++ rest)%string) in *.
  cbn [commandMatch]. now rewrite Hat.
Qed.

End CommandNameProofs.

(** The theorem at the tag of the clear command. *)
Lemma extractCommandName_witness :
  MetadataExtraction.extractCommandName
    ("<command-name>/" ++ "clear" ++ "</command-name>"
       ++ "<command-message>clear</command-message>")%string
  = ("/" ++ "clear")%string.
Proof.
  apply (extractCommandName_label "" "clear" "<command-message>clear</command-message>").
  - discriminate.
  - reflexivity.
Defined.

(** ** More on the preview extraction *)

Section MorePreviewProofs.
Import MetadataExtraction.

Variable isCommandOutputContent : string -> bool.
Variable sanitizeDisplayContent : string -> string.
Variable isTextContent : json -> Outcome bool.
Variable toString : json -> string.
Variable now : string.

Local Abbreviation extractPreview :=
  (extractPreviewFromUserEntry isCommandOutputContent sanitizeDisplayContent
     isTextContent toString now).
Local Abbreviation extract :=
  (extractFirstUserMessagePreview isCommandOutputContent sanitizeDisplayContent
     isTextContent toString now).
Local Abbreviation contribution :=
  (linePreview isCommandOutputContent sanitizeDisplayContent isTextContent toString now).

(** What a preview is like: its text is not empty; a command preview is
    a slash label without markup, any other holds at most 500 characters. *)
Local Abbreviation wellFormed p :=
  (text p <> ""
   /\ if isCommand p
      then startsWith (text p) "/" = true /\ Labels.occurs "<" (text p) = false
      else String.length (text p) <= 500).

Lemma substring_nonempty (n : nat) (s : string) :
  s <> "" -> substring 0 (S n) s <> "".
Proof. destruct s; [easy | discriminate]. Qed.

Lemma isEmpty_false (s : string) : isEmpty s = false -> s <> "".
Proof. intros H ->. discriminate H. Qed.

Lemma previewOfText_wellFormed (ts : json) (content : string) (p : MessagePreview) :
  previewOfText sanitizeDisplayContent ts content = Some p ->
  timestamp p = ts /\ wellFormed p.
Proof.
  unfold previewOfText.
  destruct (startsWith content "<command-name>").
  - intros [= <-]. cbn [text timestamp isCommand].
    destruct (extractCommandName_shape content) as (Hslash & Hlen & Hlt).
    repeat split; try assumption.
    intros Hempty. rewrite Hempty in Hlen. cbn in Hlen. lia.
  - destruct (isEmpty _) eqn:Hempty; [discriminate|].
    intros [= <-]. cbn [text timestamp isCommand].
    split; [reflexivity|]. split.
    + apply substring_nonempty, isEmpty_false, Hempty.
    + apply substring_length.
Qed.

(** X2. Whatever the entry, a preview that extractPreviewFromUserEntry
    returns has a text that is not empty and a timestamp that is not
    null; the text of a command preview starts with a slash and holds no
    [<], the text of any other preview has at most 500 characters. *)
Theorem preview_is_well_formed (entry : json) (p : MessagePreview) :
  extractPreview entry = Returned (Some p) ->
  text p <> ""
  /\ timestamp p <> JNull
  /\ if isCommand p
     then startsWith (text p) "/" = true /\ Labels.occurs "<" (text p) = false
     else String.length (text p) <= 500.
Proof.
  unfold extractPreviewFromUserEntry.
  destruct (prop entry "timestamp") as [ts|]; [|discriminate]. cbn [obind].
  set (stamp := match ts with None | Some JNull => JStr now | Some v => v end).
  assert (Hstamp : stamp <> JNull) by (subst stamp; now destruct ts as [[]|]).
  destruct (prop entry "message") as [[message|]|]; try discriminate. cbn [obind].
  destruct (negb (truthy message)); [discriminate|].
  destruct (prop message "content") as [[content|]|]; try discriminate. cbn [obind].
  destruct content as [|b|n|str|items|fields]; try discriminate.
  - destruct (_ || _); [discriminate|]. intros [= H].
    destruct (previewOfText_wellFormed _ _ _ H) as (-> & Hne & Hshape). now repeat split.
  - destruct (filterText isTextContent items) as [blocks|]; [|discriminate]. cbn [obind].
    destruct (texts blocks) as [ts'|]; [|discriminate]. cbn [obind].
    destruct (_ || _); [discriminate|]. intros [= H].
    destruct (previewOfText_wellFormed _ _ _ H) as (-> & Hne & Hshape). now repeat split.
Qed.

Lemma settle_nothing (fb : option Preview) (rs : list (Outcome (option MessagePreview))) :
  Forall (fun r => r = Returned None) rs -> settle fb rs = Returned fb.
Proof.
  induction 1 as [|r rs -> _ IH]; [now destruct fb|].
  now rewrite settle_step.
Qed.

(** X3. Blank lines and lines that are not JSON use up the budget: when
    the file starts with at least max(1, maxLines) of them, the call
    resolves to null, whatever comes after. *)
Theorem junk_uses_up_the_budget (junk rest : list Line) (maxLines : Z) :
  forallb (fun l => match l with Parsed _ => false | _ => true end) junk = true ->
  (Z.max 1 maxLines <= Z.of_nat (List.length junk))%Z ->
  extract (junk ++ rest) maxLines = Returned None.
Proof.
  intros Hjunk Hlen. unfold extractFirstUserMessagePreview.
  rewrite loop_settles, Z.sub_0_r, take_app_le by lia.
  apply settle_nothing, Forall_map, Forall_take.
  rewrite forallb_forall in Hjunk. apply Forall_forall. intros l Hl.
  apply list_elem_of_In in Hl. specialize (Hjunk l Hl). now destruct l.
Qed.

(** X4. A budget of one line or less, zero and negative budgets
    included, is a budget of exactly one line: only the first line of the
    file is looked at. *)
Theorem small_budget_is_one_line (lines : list Line) (maxLines : Z) :
  (maxLines <= 1)%Z ->
  extract lines maxLines = extract (take 1 lines) 1.
Proof.
  intros Hm. unfold extractFirstUserMessagePreview.
  rewrite !loop_settles, Z.max_l by lia.
  change (Z.max 1 1) with 1%Z. change (Z.to_nat (1 - 0)) with 1.
  now rewrite take_take.
Qed.

End MorePreviewProofs.

(** The theorems at sessions of the scenarios. *)
Lemma preview_is_well_formed_witness :
  MetadataExtraction.text
    {| MetadataExtraction.text := "/clear"; MetadataExtraction.timestamp := JStr "t0";
       MetadataExtraction.isCommand := true |} <> "".
Proof.
  apply (preview_is_well_formed (fun _ => false) (fun content => content)
           (fun _ => Returned true) (fun _ => "") "2026-01-01T00:00:00.000Z"
           (JObj [ ("type", JStr "user"); ("timestamp", JStr "t0");
                   ("message",
                    JObj [ ("content", JStr "<command-name>/clear</command-name>") ]) ])).
  reflexivity.
Defined.

Lemma junk_uses_up_the_budget_witness :
  Scenario.extractPreview
    ([MetadataExtraction.Blank; MetadataExtraction.Malformed]
       ++ [MetadataExtraction.userEntry "t1" "hello"]) 2
  = Returned None.
Proof.
  apply (junk_uses_up_the_budget (fun _ => false) (fun content => content)
           (fun _ => Returned true) (fun _ => "") "2026-01-01T00:00:00.000Z").
  - reflexivity.
  - vm_compute. discriminate.
Defined.

Lemma small_budget_witness :
  Scenario.extractPreview Scenario.commandThenHello (-7)
  = Scenario.extractPreview (take 1 Scenario.commandThenHello) 1.
Proof.
  apply (small_budget_is_one_line (fun _ => false) (fun content => content)
           (fun _ => Returned true) (fun _ => "") "2026-01-01T00:00:00.000Z").
  vm_compute. discriminate.
Defined.

(** ** More on extractCwd *)

Section MoreCwdProofs.
Import MetadataExtraction.

Lemma extractCwd_existing (lines : list Line) :
  extractCwd true lines = Returned (firstCwd lines).
Proof.
  unfold extractCwd. cbn [negb].
  pose proof (cwdLoop_firstCwd lines) as H.
  destruct (cwdLoop lines); now rewrite H.
Qed.

Lemma firstCwd_without (before after : list Line) (line : Line) :
  decides line = false ->
  firstCwd (before ++ line :: after) = firstCwd (before ++ after).
Proof.
  intros Hline. unfold firstCwd.
  induction before as [|l before IH]; cbn [app List.find].
  - now rewrite Hline.
  - destruct (decides l); [reflexivity | exact IH].
Qed.

(** X5. A line that is blank, that parses to an array, or that parses to
    an object without a truthy cwd has no bearing on extractCwd: it can
    be dropped from the file, or put into it, anywhere, and the result
    stays the same. *)
Theorem extractCwd_ignores_lines_without_cwd
    (fileExists : bool) (before after : list Line) (line : Line) :
  cwdValue line = None -> aborts line = false ->
  extractCwd fileExists (before ++ line :: after) = extractCwd fileExists (before ++ after).
Proof.
  intros Hvalue Habort. destruct fileExists; [|reflexivity].
  rewrite !extractCwd_existing. f_equal. apply firstCwd_without.
  unfold decides. rewrite Hvalue, Habort. reflexivity.
Qed.

Lemma firstCwd_found (lines : list Line) (v : json) :
  firstCwd lines = Some v ->
  truthy v = true /\ exists line, In line lines /\ cwdField line = Some v.
Proof.
  unfold firstCwd. destruct (List.find decides lines) as [line|] eqn:Hfind; [|discriminate].
  apply find_some in Hfind. destruct Hfind as [Hin _].
  unfold cwdValue. destruct (cwdField line) as [w|] eqn:Hfield; [|discriminate].
  destruct (truthy w) eqn:Htruthy; [|discriminate].
  intros [= <-]. split; [exact Htruthy|]. now exists line.
Qed.

(** X6. When extractCwd resolves to a value, the file exists, the value
    is truthy (never an empty string), and it is the cwd field of an
    entry of the file. *)
Theorem extractCwd_returns_a_cwd_of_the_file
    (fileExists : bool) (lines : list Line) (v : json) :
  extractCwd fileExists lines = Returned (Some v) ->
  fileExists = true
  /\ truthy v = true
  /\ v <> JStr ""
  /\ exists line, In line lines /\ cwdField line = Some v.
Proof.
  destruct fileExists; [|discriminate].
  rewrite extractCwd_existing. intros [= H].
  destruct (firstCwd_found lines v H) as [Htruthy Hline].
  split; [reflexivity|]. split; [exact Htruthy|]. split; [|exact Hline].
  intros ->. discriminate Htruthy.
Qed.

End MoreCwdProofs.

(** The theorems at a file with an entry that carries no cwd. *)
Lemma extractCwd_ignores_witness :
  MetadataExtraction.extractCwd true
    ([MetadataExtraction.Blank]
       ++ MetadataExtraction.userEntry "t0" "hello"
            :: [MetadataExtraction.entryWithCwd "/home/u/project"])
  = MetadataExtraction.extractCwd true
      ([MetadataExtraction.Blank] ++ [MetadataExtraction.entryWithCwd "/home/u/project"]).
Proof.
  apply (extractCwd_ignores_lines_without_cwd true); reflexivity.
Defined.

Lemma extractCwd_returns_witness :
  true = true
  /\ truthy (JStr "/home/u/project") = true
  /\ JStr "/home/u/project" <> JStr ""
  /\ exists line,
       In line [ MetadataExtraction.userEntry "t0" "hello";
                 MetadataExtraction.entryWithCwd "/home/u/project" ]
       /\ MetadataExtraction.cwdField line = Some (JStr "/home/u/project").
Proof.
  apply (extractCwd_returns_a_cwd_of_the_file true
           [ MetadataExtraction.userEntry "t0" "hello";
             MetadataExtraction.entryWithCwd "/home/u/project" ]).
  reflexivity.
Defined.

(** ** Ties in the ranking *)

Section TieProofs.
Import RankedInjectionList.

Lemma filter_insert (t : Z) (x : ContextInjection) (l : list ContextInjection) :
  List.filter (fun i => (estimatedTokens i =? t)%Z) (insert byTokensDescending x l)
  = List.filter (fun i => (estimatedTokens i =? t)%Z) (x :: l).
Proof.
  induction l as [|y l IH]; [reflexivity|]. cbn [insert].
  unfold byTokensDescending at 1.
  destruct (Z.leb_spec (estimatedTokens y - estimatedTokens x) 0) as [Hle|Hgt];
    [reflexivity|].
  cbn [List.filter] in *. rewrite IH.
  destruct (Z.eqb_spec (estimatedTokens y) t), (Z.eqb_spec (estimatedTokens x) t);
    try reflexivity; lia.
Qed.

Lemma filter_sorted (t : Z) (l : list ContextInjection) :
  List.filter (fun i => (estimatedTokens i =? t)%Z) (sorted byTokensDescending l)
  = List.filter (fun i => (estimatedTokens i =? t)%Z) l.
Proof.
  induction l as [|x l IH]; [reflexivity|]. cbn [sorted].
  rewrite filter_insert. cbn [List.filter]. now rewrite IH.
Qed.

Lemma filter_rows (t : Z) (l : list ContextInjection) :
  List.filter (fun r => (tokens r =? t)%Z) (map row l)
  = map row (List.filter (fun i => (estimatedTokens i =? t)%Z) l).
Proof.
  induction l as [|x l IH]; [reflexivity|]. cbn [map List.filter row tokens] in *.
  destruct (estimatedTokens x =? t)%Z; cbn [map]; now rewrite IH.
Qed.

Lemma ranked_run (st : Store) (injections : nat) (xs : list ContextInjection) :
  st !! injections = Some xs ->
  RankedInjectionList.RankedInjectionList injections st
  = (Returned (map row (sorted byTokensDescending xs)),
     <[List.length st := sorted byTokensDescending xs]> (st ++ [xs])).
Proof.
  intros Hxs.
  assert (Hnew : (st ++ [xs]) !! List.length st = Some xs).
  { rewrite lookup_app_r by lia. now rewrite Nat.sub_diag. }
  assert (Hset : (<[List.length st := sorted byTokensDescending xs]> (st ++ [xs]))
                   !! List.length st = Some (sorted byTokensDescending xs)).
  { apply list_lookup_insert_eq. rewrite length_app. simpl. lia. }
  unfold RankedInjectionList.RankedInjectionList, sortedInjections, spread, sort,
    Js.bind, Js.get, Js.modify, Js.ret.
  rewrite Hxs. rewrite Hnew. now rewrite Hset.
Qed.

(** X7. Entries with the same estimatedTokens are rendered in the order
    the caller gave them: for every token count, the rows with that count
    are, in order, the rows of the input entries with that count. *)
Theorem ranked_rows_keep_order_of_ties
    (st : Store) (injections : nat) (xs : list ContextInjection) (t : Z) :
  st !! injections = Some xs ->
  exists rows st',
    RankedInjectionList.RankedInjectionList injections st = (Returned rows, st')
    /\ List.filter (fun r => (tokens r =? t)%Z) rows
       = List.filter (fun r => (tokens r =? t)%Z) (map row xs).
Proof.
  intros Hxs.
  exists (map row (sorted byTokensDescending xs)),
         (<[List.length st := sorted byTokensDescending xs]> (st ++ [xs])).
  split; [apply ranked_run, Hxs|].
  now rewrite !filter_rows, filter_sorted.
Qed.

End TieProofs.

(** The theorem at the three injections of the scenario, two of which
    have 30 tokens. *)
Lemma ranked_ties_witness :
  exists rows st',
    RankedInjectionList.RankedInjectionList 0 [Scenario.threeInjections] = (Returned rows, st')
    /\ List.filter (fun r => (RankedInjectionList.tokens r =? 30)%Z) rows
       = List.filter (fun r => (RankedInjectionList.tokens r =? 30)%Z)
           (map RankedInjectionList.row Scenario.threeInjections).
Proof.
  apply (ranked_rows_keep_order_of_ties [Scenario.threeInjections] 0). reflexivity.
Defined.

(** ** Labels *)

Section LabelProofs.
Import Labels.

Lemma length_append (s t : string) :
  String.length (s ++ t)%string = String.length s + String.length t.
Proof.
  induction s as [|c s IH]; [reflexivity|].
  rewrite append_cons. cbn [String.length]. now rewrite IH.
Qed.

Lemma substring_length_exact (n : nat) (s : string) :
  n <= String.length s -> String.length (substring 0 n s) = n.
Proof.
  revert s. induction n as [|n IH]; intros [|c s]; cbn [substring String.length];
    try lia.
  intros H. rewrite IH; lia.
Qed.

(** X8. The file name label of BashToolViewer is never empty and never
    longer than 60 characters. A description of 1 to 60 characters is
    shown as it is; a longer one is cut to its first 57 characters
    followed by three dots, 60 characters in all; without a description
    the label is bash. *)
Theorem fileName_fits (description : option string) (d : string) :
  fileName description <> ""
  /\ String.length (fileName description) <= 60
  /\ fileName None = "bash"
  /\ fileName (Some "") = "bash"
  /\ (d <> "" -> String.length d <= 60 -> fileName (Some d) = d)
  /\ (60 < String.length d ->
      fileName (Some d) = (substring 0 57 d ++ "...")%string
      /\ String.length (fileName (Some d)) = 60).
Proof.
  assert (Hlong : forall x, 60 < String.length x ->
            fileName (Some x) = (substring 0 57 x ++ "...")%string
            /\ String.length (fileName (Some x)) = 60).
  { intros x Hx. unfold fileName, slice0.
    destruct x as [|c x]; [cbn in Hx; lia|]. cbn [MetadataExtraction.isEmpty String.eqb].
    destruct (Nat.ltb_spec 60 (String.length (String c x))); [|lia].
    split; [reflexivity|]. rewrite length_append, substring_length_exact by lia.
    reflexivity. }
  assert (Hshort : forall x, x <> "" -> String.length x <= 60 -> fileName (Some x) = x).
  { intros x Hne Hx. unfold fileName.
    destruct x as [|c x]; [now destruct Hne|]. cbn [MetadataExtraction.isEmpty String.eqb].
    destruct (Nat.ltb_spec 60 (String.length (String c x))); [lia | reflexivity]. }
  assert (Hall : fileName description <> "" /\ String.length (fileName description) <= 60).
  { destruct description as [x|]; [|split; [discriminate | cbn; lia]].
    destruct x as [|c x]; [split; [discriminate | cbn; lia]|].
    destruct (Nat.lt_ge_cases 60 (String.length (String c x))) as [Hx|Hx].
    - destruct (Hlong _ Hx) as [Heq Hlen]. split; [|lia].
      intros Hempty. rewrite Hempty in Hlen. discriminate Hlen.
    - rewrite Hshort by (discriminate || exact Hx). split; [discriminate | exact Hx]. }
  destruct Hall as [Hne Hlen].
  split; [exact Hne|]. split; [exact Hlen|]. split; [reflexivity|]. split; [reflexivity|].
  split; [apply Hshort | apply Hlong].
Qed.

Lemma dropPrefix_none (p s : string) :
  String.prefix p s = false -> MetadataExtraction.dropPrefix p s = None.
Proof.
  revert s. induction p as [|a p IH]; intros [|b s]; cbn [String.prefix
    MetadataExtraction.dropPrefix]; try discriminate; try reflexivity.
  destruct (ascii_dec a b) as [->|Hne].
  - rewrite Ascii.eqb_refl. apply IH.
  - intros _. apply Ascii.eqb_neq in Hne. now rewrite Hne.
Qed.

(** X9. The overlay names a remote context by its host: for every host,
    the label of the identifier made of ssh- and the host is the host;
    one ssh- is taken off, at the front only. An identifier other than
    local that does not start with ssh- is its own label, local is shown
    as Local, no identifier as Unknown; and the overlay shows nothing
    while no switch is under way. *)
Theorem contextLabel_names_the_host (host id : string) (targetId : option string) :
  contextLabel (Some ("ssh-" ++ host)%string) = host
  /\ contextLabel (Some "local") = "Local"
  /\ contextLabel None = "Unknown"
  /\ ContextSwitchOverlay false targetId = None
  /\ ContextSwitchOverlay true (Some ("ssh-" ++ host)%string)
     = Some ("Switching to " ++ host ++ "...")%string
  /\ (id <> "local" -> MetadataExtraction.startsWith id "ssh-" = false ->
      contextLabel (Some id) = id).
Proof.
  assert (Hhost : contextLabel (Some ("ssh-" ++ host)%string) = host).
  { unfold contextLabel, withoutSshPrefix.
    rewrite (dropPrefix_append "ssh-" host).
    rewrite !append_cons. reflexivity. }
  split; [exact Hhost|]. split; [reflexivity|]. split; [reflexivity|].
  split; [reflexivity|].
  split; [unfold ContextSwitchOverlay; now rewrite Hhost|].
  intros Hne Hprefix. unfold contextLabel, withoutSshPrefix.
  destruct (String.eqb_spec id "local") as [->|_]; [now destruct Hne|].
  now rewrite dropPrefix_none.
Qed.

End LabelProofs.

(** The theorems at a short description and at an identifier without
    the ssh- prefix. *)
Lemma fileName_witness :
  Labels.fileName (Some "List files in current directory")
  = "List files in current directory".
Proof.
  destruct (fileName_fits None "List files in current directory")
    as (_ & _ & _ & _ & Hshort & _).
  apply Hshort; [discriminate | vm_compute; lia].
Defined.

Lemma contextLabel_witness :
  Labels.contextLabel (Some "staging") = "staging".
Proof.
  destruct (contextLabel_names_the_host "host1" "staging" None)
    as (_ & _ & _ & _ & _ & Hother).
  apply Hother; [discriminate | reflexivity].
Defined.

(** ** The updater handlers *)

(** X10. The three updater handlers swallow whatever the updater service
    throws: each resolves to undefined, in the state the service left
    behind, so a failed check, download or install is never reported to
    the caller of the channel. *)
Theorem updater_handlers_swallow_errors
    (W : Type) (checkForUpdates downloadUpdate quitAndInstall : Eff W unit) (w : W) :
  UpdaterIpc.handleCheck W checkForUpdates w = (Returned tt, snd (checkForUpdates w))
  /\ UpdaterIpc.handleDownload W downloadUpdate w = (Returned tt, snd (downloadUpdate w))
  /\ UpdaterIpc.handleInstall W quitAndInstall w = (Returned tt, snd (quitAndInstall w)).
Proof.
  unfold UpdaterIpc.handleCheck, UpdaterIpc.handleDownload, UpdaterIpc.handleInstall,
    Js.try_catch, Js.ret.
  destruct (checkForUpdates w) as [[[]|e1] w1], (downloadUpdate w) as [[[]|e2] w2],
    (quitAndInstall w) as [[[]|e3] w3]; repeat split.
Qed.

(** ** Registering and removing handlers *)

Section IpcProofs.
Import Ipc.

Lemma handle_three (a b c : string) (ha hb hc : Handler) (t : IpcMain) :
  NoDup [a; b; c] -> t !! a = None -> t !! b = None -> t !! c = None ->
  exec [ handle a ha; handle b hb; handle c hc ] t
  = (Returned tt, <[c := hc]> (<[b := hb]> (<[a := ha]> t))).
Proof.
  intros Hnd Ha Hb Hc.
  apply NoDup_cons in Hnd as [Hab Hnd]. apply NoDup_cons in Hnd as [Hbc _].
  assert (a <> b) by (intros ->; apply Hab; left).
  assert (a <> c) by (intros ->; apply Hab; right; left).
  assert (b <> c) by (intros ->; apply Hbc; left).
  cbn [exec]. unfold Js.bind, handle, Js.modify, Js.ret.
  rewrite Ha. rewrite lookup_insert_ne, Hb by done.
  rewrite !lookup_insert_ne, Hc by done. reflexivity.
Qed.

Lemma handle_taken (a b c : string) (ha hb hc : Handler) (t : IpcMain) :
  is_Some (t !! a) ->
  exists e, exec [ handle a ha; handle b hb; handle c hc ] t = (Threw e, t).
Proof.
  intros [h Hh]. cbn [exec]. unfold Js.bind, handle, Js.throw. rewrite Hh. eauto.
Qed.

Lemma remove_three (a b c : string) (t : IpcMain) :
  exec [ removeHandler a; removeHandler b; removeHandler c ] t
  = (Returned tt, delete c (delete b (delete a t))).
Proof. reflexivity. Qed.

Lemma remove_after_handle (a b c : string) (ha hb hc : Handler) (t : IpcMain) :
  t !! a = None -> t !! b = None -> t !! c = None ->
  delete c (delete b (delete a (<[c := hc]> (<[b := hb]> (<[a := ha]> t))))) = t.
Proof.
  intros Ha Hb Hc. apply map_eq. intros k.
  rewrite !lookup_delete, !lookup_insert.
  repeat case_decide; subst; congruence.
Qed.

(** X11. On a table in which the three context channels are free (and
    the three channel names differ), registerContextHandlers installs the
    three handlers, each on its channel, and touches no other channel;
    removeContextHandlers then gives back the table as it was. A second
    registration is refused and changes nothing. Removing never throws
    and leaves the three channels free, on any table. *)
Theorem context_handlers_register_and_remove
    (CONTEXT_LIST CONTEXT_GET_ACTIVE CONTEXT_SWITCH : string) (t u : IpcMain) :
  (NoDup [CONTEXT_LIST; CONTEXT_GET_ACTIVE; CONTEXT_SWITCH] ->
   t !! CONTEXT_LIST = None -> t !! CONTEXT_GET_ACTIVE = None ->
   t !! CONTEXT_SWITCH = None ->
   exists t',
     registerContextHandlers CONTEXT_LIST CONTEXT_GET_ACTIVE CONTEXT_SWITCH t
     = (Returned tt, t')
     /\ t' !! CONTEXT_LIST = Some contextList
     /\ t' !! CONTEXT_GET_ACTIVE = Some contextGetActive
     /\ t' !! CONTEXT_SWITCH = Some contextSwitch
     /\ (forall channel,
          channel <> CONTEXT_LIST -> channel <> CONTEXT_GET_ACTIVE ->
          channel <> CONTEXT_SWITCH -> t' !! channel = t !! channel)
     /\ removeContextHandlers CONTEXT_LIST CONTEXT_GET_ACTIVE CONTEXT_SWITCH t'
        = (Returned tt, t)
     /\ exists e,
          registerContextHandlers CONTEXT_LIST CONTEXT_GET_ACTIVE CONTEXT_SWITCH t'
          = (Threw e, t'))
  /\ exists u',
       removeContextHandlers CONTEXT_LIST CONTEXT_GET_ACTIVE CONTEXT_SWITCH u
       = (Returned tt, u')
       /\ u' !! CONTEXT_LIST = None /\ u' !! CONTEXT_GET_ACTIVE = None
       /\ u' !! CONTEXT_SWITCH = None.
Proof.
  split.
  - intros Hnd Hl Hg Hs.
    pose proof (handle_three _ _ _ contextList contextGetActive contextSwitch t Hnd Hl Hg Hs)
      as Hrun.
    apply NoDup_cons in Hnd as [Hab Hnd]. apply NoDup_cons in Hnd as [Hbc _].
    assert (CONTEXT_LIST <> CONTEXT_GET_ACTIVE) by (intros Heq; apply Hab; rewrite Heq; left).
    assert (CONTEXT_LIST <> CONTEXT_SWITCH)
      by (intros Heq; apply Hab; rewrite Heq; right; left).
    assert (CONTEXT_GET_ACTIVE <> CONTEXT_SWITCH)
      by (intros Heq; apply Hbc; rewrite Heq; left).
    eexists. split; [exact Hrun|].
    split; [now rewrite !lookup_insert_ne, lookup_insert_eq by done|].
    split; [now rewrite lookup_insert_ne, lookup_insert_eq by done|].
    split; [now rewrite lookup_insert_eq|].
    split; [intros channel ? ? ?; now rewrite !lookup_insert_ne by done|].
    split.
    + unfold removeContextHandlers. rewrite remove_three. f_equal.
      now apply remove_after_handle.
    + apply handle_taken. rewrite !lookup_insert_ne, lookup_insert_eq by done. eauto.
  - eexists. split; [apply remove_three|].
    repeat split; rewrite !lookup_delete; repeat case_decide; congruence.
Qed.

(** X12. The same for the updater channels updater:check,
    updater:download and updater:install: registering on a table in which
    they are free installs the three handlers and touches nothing else,
    removing afterwards gives back the table, a second registration is
    refused, and removing leaves the three channels free on any table. *)
Theorem updater_handlers_register_and_remove (t u : IpcMain) :
  (t !! "updater:check" = None -> t !! "updater:download" = None ->
   t !! "updater:install" = None ->
   exists t',
     registerUpdaterHandlers t = (Returned tt, t')
     /\ t' !! "updater:check" = Some handleCheck
     /\ t' !! "updater:download" = Some handleDownload
     /\ t' !! "updater:install" = Some handleInstall
     /\ (forall channel,
          channel <> "updater:check" -> channel <> "updater:download" ->
          channel <> "updater:install" -> t' !! channel = t !! channel)
     /\ removeUpdaterHandlers t' = (Returned tt, t)
     /\ exists e, registerUpdaterHandlers t' = (Threw e, t'))
  /\ exists u',
       removeUpdaterHandlers u = (Returned tt, u')
       /\ u' !! "updater:check" = None /\ u' !! "updater:download" = None
       /\ u' !! "updater:install" = None.
Proof.
  split.
  - intros Hc Hd Hi.
    assert (Hnd : NoDup ["updater:check"; "updater:download"; "updater:install"])
      by (repeat constructor; rewrite ?list_elem_of_In; cbn; intuition discriminate).
    pose proof (handle_three _ _ _ handleCheck handleDownload handleInstall t Hnd Hc Hd Hi)
      as Hrun.
    eexists. split; [exact Hrun|].
    split; [now rewrite !lookup_insert_ne, lookup_insert_eq by done|].
    split; [now rewrite lookup_insert_ne, lookup_insert_eq by done|].
    split; [now rewrite lookup_insert_eq|].
    split; [intros channel ? ? ?; now rewrite !lookup_insert_ne by done|].
    split.
    + unfold removeUpdaterHandlers. rewrite remove_three. f_equal.
      now apply remove_after_handle.
    + apply handle_taken. rewrite !lookup_insert_ne, lookup_insert_eq by done. eauto.
  - eexists. split; [apply remove_three|].
    repeat split; rewrite !lookup_delete; repeat case_decide; congruence.
Qed.

End IpcProofs.

(** The theorems at an empty table. *)
Lemma context_handlers_witness :
  Ipc.removeContextHandlers "context:list" "context:getActive" "context:switch"
    (snd (Ipc.registerContextHandlers "context:list" "context:getActive" "context:switch" ∅))
  = (Returned tt, ∅).
Proof.
  destruct (context_handlers_register_and_remove
              "context:list" "context:getActive" "context:switch" ∅ ∅) as [Hreg _].
  assert (Hnd : NoDup ["context:list"; "context:getActive"; "context:switch"])
    by (repeat constructor; rewrite ?list_elem_of_In; cbn; intuition discriminate).
  destruct (Hreg Hnd eq_refl eq_refl eq_refl) as (t' & Hrun & _ & _ & _ & _ & Hback & _).
  rewrite Hrun. exact Hback.
Defined.

Lemma updater_handlers_witness :
  Ipc.removeUpdaterHandlers (snd (Ipc.registerUpdaterHandlers ∅)) = (Returned tt, ∅).
Proof.
  destruct (updater_handlers_register_and_remove ∅ ∅) as [Hreg _].
  destruct (Hreg eq_refl eq_refl eq_refl) as (t' & Hrun & _ & _ & _ & _ & Hback & _).
  rewrite Hrun. exact Hback.
Defined.

(** ** The callback, event delivery and the life of the process *)

Section LifecycleProofs.
Import Wiring Lifecycle.

(** X13. onContextSwitched never throws and, besides rewiring, only
    talks to the renderer: with a live window it sends the current
    connection status on SSH_STATUS and then the context-changed notice
    with the identifier and type of the context, in that order; with no
    live window it sends nothing. The window, the registry, the
    connection manager and the installed handlers are as before. *)
Theorem onContextSwitched_notifies_the_renderer (context : ServiceContext) (s : Process) :
  exists s',
    Index.onContextSwitched context s = (Returned tt, s')
    /\ renderer s'
       = renderer s
         ++ (if Index.windowIsLive s
             then [ (SSH_STATUS, StatusValue (Ssh.getStatus s));
                    (context_changed, ContextChanged (ctx_id context) (ctx_type context)) ]
             else [])
    /\ mainWindow s' = mainWindow s
    /\ contextRegistry s' = contextRegistry s
    /\ sshConnectionManager s' = sshConnectionManager s
    /\ ipcHandlers s' = ipcHandlers s.
Proof.
  destruct (wire_anywhere context s) as [Hfst Hsurr].
  destruct (Index.wireFileWatcherEvents context s) as [[[]|e] s4] eqn:Hwire;
    [|discriminate Hfst].
  cbn [snd] in Hsurr.
  rewrite (onContextSwitched_outcome context s s4 Hwire Hsurr).
  unfold surroundings in Hsurr. injection Hsurr as Hm Hr Hreg Hssh _ Hipc.
  eexists. split; [reflexivity|].
  destruct (Index.windowIsLive s); cbn [renderer set_renderer mainWindow contextRegistry
    sshConnectionManager ipcHandlers]; rewrite ?app_nil_r; repeat split; assumption.
Qed.

Lemma listeners_wiredTo (id : string) (n : nat) (ev : WatcherEventName) (s : Process) :
  wiredTo id n s ->
  exists k, Watcher.listeners ev (Watcher.watcherOf s id)
            = [ {| closure := k; forwardsTo := channelOf ev |} ].
Proof.
  intros (Hf & Ht & _). destruct ev; cbn [Watcher.listeners channelOf]; eauto.
Qed.

Lemma listeners_elsewhere (id other : string) (ev : WatcherEventName) (s : Process) :
  onlyFrom id s -> other <> id ->
  Watcher.listeners ev (Watcher.watcherOf s other) = [].
Proof.
  intros Honly Hne.
  destruct (Watcher.listeners ev (Watcher.watcherOf s other)) as [|l ls] eqn:Hls;
    [reflexivity|].
  destruct Hne. apply Honly. exists ev. now rewrite Hls.
Qed.

Lemma emit_nothing (x : Payload) (s : Process) :
  Emitter.emit [] x s = (Returned tt, s).
Proof. reflexivity. Qed.

(** X14. After a rewiring pass to a context, an event of that context's
    watcher reaches the renderer once, on the channel of its class and
    with the event as it came, provided there is a live window, and is
    dropped otherwise; an event of any other context's watcher reaches
    nothing. *)
Theorem events_come_from_the_wired_context_only
    (context : ServiceContext) (s : Process)
    (ev : WatcherEventName) (event : json) (other : string) :
  Wired s ->
  exists s4,
    Index.wireFileWatcherEvents context s = (Returned tt, s4)
    /\ Watcher.emit (ctx_id context) ev event s4
       = (Returned tt,
          if Index.windowIsLive s
          then set_renderer (renderer s ++ [(channelOf ev, WatcherEvent event)]) s4
          else s4)
    /\ (other <> ctx_id context -> Watcher.emit other ev event s4 = (Returned tt, s4)).
Proof.
  intros Hwired.
  destruct (rewiring_pass context s Hwired)
    as (s1 & s2 & s3 & s4 & _ & Hwire & _ & _ & _ & Honly & _ & Hto & _ & Hsurr).
  exists s4. split; [exact Hwire|].
  unfold surroundings in Hsurr. injection Hsurr as Hm Hr _ _ _ _.
  split.
  - destruct (listeners_wiredTo _ _ ev _ Hto) as [k Hls].
    unfold Watcher.emit, Js.bind, Js.get. rewrite Hls, emit_outcome.
    unfold Index.windowIsLive. rewrite Hm, Hr. reflexivity.
  - intros Hne. unfold Watcher.emit, Js.bind, Js.get.
    rewrite (listeners_elsewhere _ _ ev _ Honly Hne). apply emit_nothing.
Qed.

Lemma Wired_noLeak (s : Process) : Wired s -> noLeak s.
Proof.
  intros [[Hf Ht _ _] _] id ev. destruct ev; cbn [Watcher.listeners].
  - rewrite Hf. unfold accountedFor. destruct (fileChangeCleanup s) as [c|]; [|cbn; lia].
    destruct (decide _); cbn; lia.
  - rewrite Ht. unfold accountedFor. destruct (todoChangeCleanup s) as [c|]; [|cbn; lia].
    destruct (decide _); cbn; lia.
Qed.

Lemma emit_wiring (ls : list Listener) (x : Payload) (s : Process) :
  exists s', Emitter.emit ls x s = (Returned tt, s') /\ wiring s' = wiring s.
Proof.
  rewrite emit_outcome. eexists. split; [reflexivity|].
  now destruct (Index.windowIsLive s).
Qed.

Lemma happen_Wired (h : Happening) (s : Process) :
  Wired s -> exists s', happen h s = (Returned tt, s') /\ Wired s'.
Proof.
  intros Hwired. destruct h as [context|context|id ev event|status| |]; cbn [happen].
  - destruct (rewiring_pass context s Hwired)
      as (s1 & s2 & s3 & s4 & _ & Hwire & _ & _ & _ & _ & _ & _ & Hw4 & _).
    eauto.
  - destruct (rewiring_pass context s Hwired)
      as (s1 & s2 & s3 & s4 & _ & Hwire & _ & _ & _ & _ & _ & _ & Hw4 & Hsurr).
    rewrite (onContextSwitched_outcome context s s4 Hwire Hsurr).
    eexists. split; [reflexivity|].
    destruct (Index.windowIsLive s); [|exact Hw4].
    now apply Wired_wiring with s4.
  - unfold Watcher.emit, Js.bind, Js.get.
    destruct (emit_wiring (Watcher.listeners ev (Watcher.watcherOf s id))
                (WatcherEvent event) s) as (s' & -> & Hw).
    eexists. split; [reflexivity|]. now apply Wired_wiring with s.
  - unfold Ssh.emitStateChange, Js.bind, Js.get.
    destruct (emit_wiring (stateChangeListeners (sshConnectionManager s))
                (StatusValue status) s) as (s' & -> & Hw).
    eexists. split; [reflexivity|]. now apply Wired_wiring with s.
  - eexists. split; [reflexivity|]. now apply Wired_wiring with s.
  - eexists. split; [reflexivity|]. now apply Wired_wiring with s.
Qed.

(** X15. Whatever happens to the main process after start-up, and in
    whatever order (rewiring passes, context-switch callbacks, watcher
    events, status changes, the window opening or closing), nothing
    throws, and in every state in between the listeners are exactly those
    of the two cleanup closures, they belong to at most one context, and
    no watcher has more than one listener per event class: listeners do
    not pile up. *)
Theorem listeners_never_pile_up (happenings : list Happening) (s : Process) :
  Wired s ->
  fst (exec (map happen happenings) s) = Returned tt
  /\ Forall (fun p => Wired p /\ singleSource p /\ noLeak p)
       (points (map happen happenings) s).
Proof.
  revert s. induction happenings as [|h hs IH]; intros s Hwired.
  - split; [reflexivity|]. cbn [map points].
    constructor; [|constructor].
    split; [exact Hwired|]. split; [now apply Wired_singleSource | now apply Wired_noLeak].
  - destruct (happen_Wired h s Hwired) as (s' & Hrun & Hwired').
    destruct (IH s' Hwired') as [Hfst Hall].
    cbn [map exec points]. unfold Js.bind. rewrite Hrun.
    split; [exact Hfst|].
    constructor; [|exact Hall].
    split; [exact Hwired|]. split; [now apply Wired_singleSource | now apply Wired_noLeak].
Qed.

(** X16. shutdownServices takes both listeners off before it disposes of
    anything: from a state kept between passes, whatever the three
    disposal steps do, they start in a state in which nothing is attached
    and both cleanup closures are null, with everything else untouched.
    Running the two cleanup steps again changes nothing. *)
Theorem shutdown_detaches_before_disposing
    (registryDispose sshDispose removeIpcHandlers : M unit) (s : Process) :
  Wired s ->
  exists s1 s2,
    points (shutdownServices_body registryDispose sshDispose removeIpcHandlers) s
    = s :: s1 :: points (shutdownServices_disposal registryDispose sshDispose
                           removeIpcHandlers) s2
    /\ shutdownServices registryDispose sshDispose removeIpcHandlers s
       = exec (shutdownServices_disposal registryDispose sshDispose removeIpcHandlers) s2
    /\ silent s2
    /\ fileChangeCleanup s2 = None /\ todoChangeCleanup s2 = None
    /\ surroundings s2 = surroundings s
    /\ Index.detachFileChange s2 = (Returned tt, s2)
    /\ Index.detachTodoChange s2 = (Returned tt, s2).
Proof.
  intros [Hacc _].
  destruct (detachFileChange_accounted s Hacc)
    as (s1 & Hrun1 & Hacc1 & Hf1 & Ht1 & _ & Hs1).
  destruct (detachTodoChange_accounted s1 Hacc1)
    as (s2 & Hrun2 & Hacc2 & Ht2 & Hf2 & _ & Hs2).
  rewrite Hf1 in Hf2.
  exists s1, s2.
  split.
  { unfold shutdownServices_body. cbn [app points]. now rewrite Hrun1, Hrun2. }
  split.
  { unfold shutdownServices, shutdownServices_body. cbn [app exec]. unfold Js.bind.
    now rewrite Hrun1, Hrun2. }
  split; [now apply silent_unnamed|].
  split; [exact Hf2|]. split; [exact Ht2|]. split; [congruence|].
  unfold Index.detachFileChange, Index.detachTodoChange, Js.bind, Js.get.
  now rewrite Hf2, Ht2.
Qed.

End LifecycleProofs.

(** ** A switch that succeeds *)

Section SuccessProofs.
Import Wiring.

Variable registry : ContextIpc.RegistryMethods.


End SuccessProofs.

(** The theorems at the state after start-up and window creation. *)
Lemma events_come_from_the_wired_context_witness :
  exists s4,
    Index.wireFileWatcherEvents Scenario.remoteContext Scenario.windowed = (Returned tt, s4)
    /\ Watcher.emit (ctx_id Scenario.remoteContext) on_file_change (JStr "session.jsonl") s4
       = (Returned tt,
          if Index.windowIsLive Scenario.windowed
          then set_renderer
                 (renderer Scenario.windowed
                  ++ [(Lifecycle.channelOf on_file_change, WatcherEvent (JStr "session.jsonl"))])
                 s4
          else s4)
    /\ Watcher.emit "local" on_file_change (JStr "session.jsonl") s4 = (Returned tt, s4).
Proof.
  destruct (events_come_from_the_wired_context_only Scenario.remoteContext Scenario.windowed
              on_file_change (JStr "session.jsonl") "local" Wired_windowed)
    as (s4 & Hwire & Hown & Hother).
  exists s4. split; [exact Hwire|]. split; [exact Hown|].
  apply Hother. discriminate.
Defined.

Lemma listeners_never_pile_up_witness :
  fst (exec (map Lifecycle.happen
               [ Lifecycle.Switched Scenario.remoteContext;
                 Lifecycle.Watched "ssh-host1" on_todo_change JNull;
                 Lifecycle.WindowClosed;
                 Lifecycle.Switched Index.localContext;
                 Lifecycle.Rewired Index.localContext ]) Scenario.windowed)
  = Returned tt
  /\ Forall (fun p => Wiring.Wired p /\ Wiring.singleSource p /\ Lifecycle.noLeak p)
       (points (map Lifecycle.happen
                  [ Lifecycle.Switched Scenario.remoteContext;
                    Lifecycle.Watched "ssh-host1" on_todo_change JNull;
                    Lifecycle.WindowClosed;
                    Lifecycle.Switched Index.localContext;
                    Lifecycle.Rewired Index.localContext ]) Scenario.windowed).
Proof.
  exact (listeners_never_pile_up _ Scenario.windowed Wired_windowed).
Defined.

Lemma shutdown_witness :
  exists s1 s2,
    points (Lifecycle.shutdownServices_body (ret tt) (ret tt) (modify (set_ipcHandlers false)))
      Scenario.windowed
    = Scenario.windowed :: s1
        :: points (Lifecycle.shutdownServices_disposal (ret tt) (ret tt)
                     (modify (set_ipcHandlers false))) s2
    /\ Lifecycle.shutdownServices (ret tt) (ret tt) (modify (set_ipcHandlers false))
         Scenario.windowed
       = exec (Lifecycle.shutdownServices_disposal (ret tt) (ret tt)
                 (modify (set_ipcHandlers false))) s2
    /\ Wiring.silent s2
    /\ fileChangeCleanup s2 = None /\ todoChangeCleanup s2 = None
    /\ Wiring.surroundings s2 = Wiring.surroundings Scenario.windowed
    /\ Index.detachFileChange s2 = (Returned tt, s2)
    /\ Index.detachTodoChange s2 = (Returned tt, s2).
Proof.
  exact (shutdown_detaches_before_disposing (ret tt) (ret tt)
           (modify (set_ipcHandlers false)) Scenario.windowed Wired_windowed).
Defined.


(** ** Content blocks and the window *)

Section BlockProofs.
Import MetadataExtraction.

Variable isCommandOutputContent : string -> bool.
Variable sanitizeDisplayContent : string -> string.
Variable isTextContent : json -> Outcome bool.
Variable toString : json -> string.
Variable now : string.



End BlockProofs.


(** X19. The forwarders look at the main window when they are called,
    not when they are made: once the window is closed every watcher event
    is dropped, and once a window has been created again the listeners
    that were attached all along deliver to it, each event once per
    listener and on the listener's channel, with no rewiring in between. *)
Theorem forwarders_follow_the_window
    (s : Process) (id : string) (ev : WatcherEventName) (event : json) :
  let closed := snd (Index.onWindowClosed s) in
  let reopened := snd (Index.createWindow closed) in
  Watcher.emit id ev event closed = (Returned tt, closed)
  /\ Watcher.emit id ev event reopened
     = (Returned tt,
        set_renderer
          (renderer s
           ++ map (fun l => (forwardsTo l, WatcherEvent event))
                (Watcher.listeners ev (Watcher.watcherOf s id)))
          reopened).
Proof.
  cbv zeta. unfold Watcher.emit, Js.bind, Js.get. rewrite !emit_outcome. split; reflexivity.
Qed.
